(** * Post-training static quantization example: [run_image_classification.py]

    A shallow embedding of the script
    [examples/quantization/image-classification/run_image_classification.py]
    and of the library calls it makes, together with the properties of the
    calibration pipeline that the specification states about it.

    A run is a computation in a monad of emitted events and raised
    exceptions; everything outside the script (file system, dataset hub,
    model exporter, quantizer, inference engine) answers through a [World].
    The configuration of the loggers (lines 165-177) has no effect on what
    follows and is left out. *)

From Stdlib Require Import ZArith Lia Ascii String.
From stdpp Require Import gmap strings list sorting.

(** ** Python results: a value or a raised exception *)

(** The [ValueError]s the script raises itself, by message. *)
Inductive value_error :=
  | UnpackMismatch
      (* not enough values to unpack (expected 5, got 4) *)
  | OutputDirExists (output_dir : string)
      (* Output directory (...) already exists and is not empty. *)
  | NoDatasetSource
      (* Need either a dataset name or a training/validation folder. *)
  | InvalidShards (num_shards : Z) (num_samples : nat)
      (* Invalid value of number of shards ... *)
  | ShardIndexOutOfRange
      (* datasets: index should be in [0, num_shards-1] *).

(** The services the script calls and does not define. *)
Inductive collaborator :=
  | OsMakedirs | DatasetLoader | FeatureExtractorLoader | MetricLoader
  | ModelExporter | QuantizerLoader | RangeEstimator | QuantizationBackend
  | ModelConfigLoader | LabelAligner | InferenceEngine | FileWriter.

Inductive exn :=
  | ValueError (msg : value_error)
  | KeyError (key : string)
  | IndexError
  | AttributeError (attr : string)
  | StateError
  | CollaboratorError (who : collaborator).

Inductive res (A : Type) :=
  | Ok (a : A)
  | Raise (e : exn).
Arguments Ok {A} a.
Arguments Raise {A} e.

Global Instance res_ret : MRet res := λ A a, Ok a.
Global Instance res_bind : MBind res := λ A B f m,
  match m with Ok a => f a | Raise e => Raise e end.
Global Instance res_fmap : FMap res := λ A B f m,
  match m with Ok a => Ok (f a) | Raise e => Raise e end.

(** [o or_raise e]: the value of [o], or exception [e] when there is none. *)
Definition or_raise {A} (o : option A) (e : exn) : res A :=
  match o with Some a => Ok a | None => Raise e end.

(** [d[key]] on a dictionary kept as its items in insertion order. *)
Fixpoint assoc {A} (key : string) (items : list (string * A)) : option A :=
  match items with
  | [] => None
  | (k, v) :: items' => if bool_decide (k = key) then Some v else assoc key items'
  end.

(** ** The [datasets] library, as far as the script uses it *)

Module datasets.
Section dataset.
Context {Row Feature : Type}.

(** A [Dataset]: its features (column name and type, in column order) and
    its rows. [column_names] is the first projection of the features. *)
Record Dataset := mkDataset {
  features : list (string * Feature);
  rows : list Row
}.

Definition column_names (ds : Dataset) : list string := (features ds).*1.
Definition len (ds : Dataset) : nat := length (rows ds).

(** [ds.select(indices)]: the rows at [indices], in that order; an index
    outside the dataset raises [IndexError]. *)
Definition select (ds : Dataset) (indices : list nat) : res Dataset :=
  rs ← or_raise (mapM (λ i, rows ds !! i) indices) IndexError;
  Ok (mkDataset (features ds) rs).

(** [range(n)] for a Python int [n]: empty when [n <= 0]. *)
Definition range (n : Z) : list nat := seq 0 (Z.to_nat n).

(** [numpy.arange(start, stop, step)] for a positive [step]:
    [ceil((stop - start) / step)] values [start, start + step, ...]. *)
Fixpoint arange_from (count start step : nat) : list nat :=
  match count with
  | O => []
  | S c => start :: arange_from c (start + step) step
  end.

Definition arange (start stop step : nat) : list nat :=
  arange_from ((stop - start + step - 1) / step) start step.

(** [ds.shuffle(seed=seed)]: [numpy.random.default_rng(seed).permutation
    (len(ds))] followed by [select]. The generator is the parameter
    [permutation]; without a seed it is seeded from OS entropy. *)
Definition shuffle (permutation : Z → nat → list nat) (entropy : Z)
    (seed : option Z) (ds : Dataset) : res Dataset :=
  let generator := default entropy seed in
  select ds (permutation generator (len ds)).

(** Modelled from the spec: [Dataset.shard] belongs to the [datasets]
    library and is not among the example's sources. A shard is "a contiguous
    or striped sub-sequence of a CalibrationDataset, indexed by (shard_count,
    shard_index)" (section 3): a contiguous block, the first [n mod
    num_shards] blocks one longer, or every [num_shards]-th index from
    [index] on. Which of the two [shard] takes by default depends on the
    version of the library. *)
Definition shard_indices (contiguous : bool) (n num_shards index : nat)
    : list nat :=
  if contiguous then
    let div := n / num_shards in
    let mod_ := n `mod` num_shards in
    let start := div * index + index `min` mod_ in
    let end_ := start + div + (if index <? mod_ then 1 else 0) in
    seq start (end_ - start)
  else arange index n num_shards.

(** Modelled from the spec: [ds.shard(num_shards, index, contiguous)], the
    rows at [shard_indices]; an index outside [0, num_shards-1] is refused. *)
Definition shard (contiguous : bool) (ds : Dataset)
    (num_shards index : nat) : res Dataset :=
  if negb (index <? num_shards) then Raise (ValueError ShardIndexOutOfRange)
  else select ds (shard_indices contiguous (len ds) num_shards index).

(** The number of rows of shard [index] out of [num_shards], for [n] rows. *)
Definition shard_size (n num_shards index : nat) : nat :=
  n / num_shards + (if index <? n `mod` num_shards then 1 else 0).
End dataset.
Global Arguments Dataset : clear implicits.
End datasets.

(** ** The range estimator *)

(** Modelled from the spec: the Range Estimator is [FuriosaAIQuantizer]
    ([partial_fit], [compute_ranges]) of [optimum.furiosa], which is not among
    the example's sources. The definitions of this module follow sections 3,
    4.2 and 4.3 of the specification: a two-state machine
    [Accumulating -> Finalized] over per-tensor statistics, whose min-max
    policy extends the running (min, max) of every observed tensor by each
    batch's observed (min, max). *)
Module estimator.

Inductive phase := Accumulating | Finalized.

Section policy.
(** [V]: the floating-point values, ordered by [leb]. *)
Context {V : Type} (leb : V → V → bool).
(** [forward s]: the named activation tensors observed while running the
    floating model forward over sample [s]. *)
Context {Sample : Type} (forward : Sample → gmap string (list V)).

Definition vmin (a b : V) : V := if leb a b then a else b.
Definition vmax (a b : V) : V := if leb a b then b else a.

(** Modelled from the spec (4.2):
    merge((a_min,a_max),(b_min,b_max)) = (min(a_min,b_min), max(a_max,b_max)) *)
Definition merge (a b : V * V) : V * V := (vmin a.1 b.1, vmax a.2 b.2).

(** A TensorRange / min-max TensorStats: tensor name to (min, max). *)
Definition merge_stats (m1 m2 : gmap string (V * V)) : gmap string (V * V) :=
  union_with (λ a b, Some (merge a b)) m1 m2.

(** The observed (min, max) of one tensor's values; nothing for no value. *)
Definition observed (vs : list V) : option (V * V) :=
  match vs with
  | [] => None
  | v :: vs' => Some (foldl vmin v vs', foldl vmax v vs')
  end.

Definition sample_stats (s : Sample) : gmap string (V * V) :=
  omap observed (forward s).

(** Modelled from the spec (4.2): the batch's observed (min, max), per
    tensor. *)
Definition batch_stats (batch : list Sample) : gmap string (V * V) :=
  foldl (λ acc s, merge_stats acc (sample_stats s)) ∅ batch.

(** The shard's samples in batches of [batch_size] (one batch holding the
    whole shard when no batch size is given). *)
Fixpoint batches_upto (fuel batch_size : nat) (l : list Sample)
    : list (list Sample) :=
  match fuel, l with
  | _, [] => []
  | O, _ => [l]
  | S f, _ => take batch_size l :: batches_upto f batch_size (drop batch_size l)
  end.

Definition batches (batch_size : nat) (l : list Sample) : list (list Sample) :=
  match batch_size, l with
  | _, [] => []
  | O, _ => [l]
  | _, _ => batches_upto (length l) batch_size l
  end.

(** The calibration policy: CalibrationConfig of the data model. *)
Inductive CalibrationConfig :=
  | MinMaxAsymmetric
  | PercentileAsymmetric (percentile : V).

(** Statistics: running (min, max) per tensor under the min-max policy;
    under the percentile policy an exact value buffer per tensor, with
    [quantiles p vs] the (low, high) pair at percentile [p]. *)
Context (quantiles : V → list V → option (V * V)).

Inductive TensorStats :=
  | MinMaxStats (m : gmap string (V * V))
  | ValueBuffers (percentile : V) (m : gmap string (list V)).

Definition empty_stats (cfg : CalibrationConfig) : TensorStats :=
  match cfg with
  | MinMaxAsymmetric => MinMaxStats ∅
  | PercentileAsymmetric p => ValueBuffers p ∅
  end.

Definition fold_batch (st : TensorStats) (batch : list Sample) : TensorStats :=
  match st with
  | MinMaxStats m => MinMaxStats (merge_stats m (batch_stats batch))
  | ValueBuffers p m =>
      ValueBuffers p
        (foldl (λ acc s, union_with (λ a b, Some (a ++ b)) acc (forward s))
               m batch)
  end.

Definition ranges_of (st : TensorStats) : gmap string (V * V) :=
  match st with
  | MinMaxStats m => m
  | ValueBuffers p m => omap (quantiles p) m
  end.

Record Estimator := mkEstimator {
  est_phase : phase;
  est_stats : TensorStats;
  (* the mapping handed out by [finalize], once there is one *)
  est_ranges : option (gmap string (V * V))
}.

(** Accumulators are created empty at the start of a run. *)
Definition new (cfg : CalibrationConfig) : Estimator :=
  mkEstimator Accumulating (empty_stats cfg) None.

(** Modelled from the spec (4.2, 4.3): [update(shard)] folds the batches of
    the shard into the statistics; after [finalize] it fails with
    [StateError]. The result is the estimator after the call, and what the
    call returned. *)
Definition update (batch_size : nat) (e : Estimator) (shard : list Sample)
    : Estimator * res unit :=
  match est_phase e with
  | Finalized => (e, Raise StateError)
  | Accumulating =>
      (mkEstimator Accumulating
         (foldl fold_batch (est_stats e) (batches batch_size shard))
         (est_ranges e),
       Ok ())
  end.

(** Modelled from the spec (4.2): [finalize()] transitions to [Finalized]
    and returns the TensorRange mapping. *)
Definition finalize (e : Estimator) : Estimator * gmap string (V * V) :=
  let ranges := ranges_of (est_stats e) in
  (mkEstimator Finalized (est_stats e) (Some ranges), ranges).
End policy.
Global Arguments CalibrationConfig : clear implicits.
Global Arguments TensorStats : clear implicits.
Global Arguments Estimator : clear implicits.
End estimator.

(** ** [json.dumps(obj, indent=4, sort_keys=True)] for a flat dictionary *)

Module json.

Definition dquote : string := String "034"%char EmptyString.
Definition newline : string := String "010"%char EmptyString.
Definition backslash : string := String "092"%char EmptyString.

Definition hex_digit (n : N) : ascii :=
  ascii_of_N (if (n <? 10)%N then 48 + n else 87 + n).

(** One character of a string literal, as [py_encode_basestring_ascii]
    writes it: the short escapes, printable ASCII unchanged, and
    [\u00xx] for every other code point (below 256 here). *)
Definition escape_char (c : ascii) : string :=
  let n := N_of_ascii c in
  if (n =? 34)%N then backslash +:+ dquote
  else if (n =? 92)%N then backslash +:+ backslash
  else if (n =? 10)%N then "\n"
  else if (n =? 13)%N then "\r"
  else if (n =? 9)%N then "\t"
  else if (n =? 8)%N then "\b"
  else if (n =? 12)%N then "\f"
  else if ((32 <=? n) && (n <=? 126))%N then String c EmptyString
  else "\u00" +:+ String (hex_digit (n / 16)) (String (hex_digit (n mod 16)) EmptyString).

Fixpoint escape (s : string) : string :=
  match s with
  | EmptyString => EmptyString
  | String c s' => escape_char c +:+ escape s'
  end.

Definition encode_string (s : string) : string := dquote +:+ escape s +:+ dquote.

Fixpoint join (sep : string) (l : list string) : string :=
  match l with
  | [] => EmptyString
  | [x] => x
  | x :: l' => x +:+ sep +:+ join sep l'
  end.

Fixpoint spaces (n : nat) : string :=
  match n with O => EmptyString | S n' => String " "%char (spaces n') end.

Section dumps.
Context {V : Type} (render : V → string).



(** [sorted(dct.items())]: the keys of a dictionary are distinct, so the
    order of the items is the order of their keys. *)
Definition item_le (a b : string * V) : Prop := String.le a.1 b.1.

Global Instance item_le_dec : RelDecision item_le.
Proof. intros a b. unfold item_le. apply _. Defined.

Definition sorted_items (d : list (string * V)) : list (string * V) :=
  merge_sort item_le d.

Definition dump_item (kv : string * V) : string :=
  encode_string kv.1 +:+ ": " +:+ render kv.2.

Definition dumps (indent : nat) (sort_keys : bool) (d : list (string * V)) : string :=
  let items := if sort_keys then sorted_items d else d in
  match items with
  | [] => "{}"
  | _ =>
      "{" +:+ newline +:+ spaces indent
          +:+ join ("," +:+ newline +:+ spaces indent) (dump_item <$> items)
          +:+ newline +:+ "}"
  end.
End dumps.
End json.

(** ** [os.path.join] with a relative second component *)

Fixpoint ends_with_slash (s : string) : bool :=
  match s with
  | EmptyString => false
  | String c EmptyString => bool_decide (c = "/"%char)
  | String _ s' => ends_with_slash s'
  end.

Definition path_join (a b : string) : string :=
  match a with
  | EmptyString => b
  | _ => if ends_with_slash a then a +:+ b else a +:+ "/" +:+ b
  end.

(** ** The script *)

Module script.
Import datasets.

(** *** Command-line arguments *)

Record DataTrainingArguments := {
  dataset_name : option string;
  dataset_config_name : option string;
  max_seq_length : Z;
  overwrite_cache : bool;
  max_eval_samples : option Z;
  max_predict_samples : option Z;
  train_dir : option string;
  validation_dir : option string
}.

Record ModelArguments := {
  model_name_or_path : string;
  cache_dir : option string;
  batch_size : Z;
  num_labels : Z
}.

(** The fields of [transformers.TrainingArguments] that the script reads. *)
Record TrainingArguments := {
  output_dir : string;
  overwrite_output_dir : bool;
  seed : Z;
  do_eval : bool
}.

Record OptimizationArguments {V : Type} := {
  quantization_approach : string;
  calibration_method : string;
  num_calibration_samples : option Z;
  num_calibration_shards : Z;
  calibration_batch_size : Z;
  calibration_histogram_percentile : V
}.
Global Arguments OptimizationArguments : clear implicits.

Record Args {V : Type} := {
  model_args : ModelArguments;
  data_args : DataTrainingArguments;
  training_args : TrainingArguments;
  optim_args : OptimizationArguments V
}.
Global Arguments Args : clear implicits.

(** How the script was started: with the path of one [.json] file as its only
    argument, or with command-line flags. *)
Inductive Invocation {V : Type} :=
  | FromJsonFile (a : Args V)
  | FromCommandLine (a : Args V).
Global Arguments Invocation : clear implicits.

Definition with_calibration_method {V} (m : string) (a : Args V) : Args V :=
  {| model_args := model_args a;
     data_args := data_args a;
     training_args := training_args a;
     optim_args :=
       {| quantization_approach := quantization_approach (optim_args a);
          calibration_method := m;
          num_calibration_samples := num_calibration_samples (optim_args a);
          num_calibration_shards := num_calibration_shards (optim_args a);
          calibration_batch_size := calibration_batch_size (optim_args a);
          calibration_histogram_percentile :=
            calibration_histogram_percentile (optim_args a) |} |}.

(** Line 188: no dataset name, no training folder and no validation folder. *)
Definition missing_dataset_source (d : DataTrainingArguments) : bool :=
  bool_decide (dataset_name d = None)
  && bool_decide (train_dir d = None)
  && bool_decide (validation_dir d = None).

Section main.
(** [V]: floats; [Image]: decoded images; [Tensor]: preprocessed arrays;
    [Feature]: column types; [Q]: the quantizer; [Model]: the quantized
    model loaded for inference. *)
Context {V Image Tensor Feature Q Model : Type}.

(** A row of a dataset is a dictionary from column name to cell. *)
Inductive Cell :=
  | CellImage (i : Image)
  | CellInt (z : Z)
  | CellTensor (t : Tensor).

Abbreviation Row := (gmap string Cell).
Abbreviation Dataset := (datasets.Dataset Row Feature).
Abbreviation TensorRange := (gmap string (V * V)).
Abbreviation CalibrationConfig := (estimator.CalibrationConfig V).

Record FeatureExtractor := {
  image_mean : list V;
  image_std : list V;
  size : gmap string Z
}.

Record ModelConfig := { label2id : list (string * Z) }.

Inductive QuantizationConfig := DefaultQuantizationConfig.

(** The methods of [FuriosaAIQuantizer] that the script calls. *)
Class Quantizer := {
  clean_calibration_dataset : Q → Dataset → res Dataset;
  partial_fit : Q → Dataset → CalibrationConfig → Z → res Q;
  compute_ranges : Q → res (Q * TensorRange);
  quantize : Q → string → TensorRange → QuantizationConfig → res unit
}.

(** Everything outside the script that a run depends on. *)
Record World := {
  isdir : string → bool;
  listdir : string → list string;
  makedirs : string → res unit;
  load_hub : string → res (gmap string Dataset);
  load_folder : string → option string → res Dataset;
  feature_extractor_from_pretrained : string → res FeatureExtractor;
  load_metric : string → res unit;
  transforms : list V → list V → Z → Image → Tensor;
  tensor_feature : Feature;
  export_model_to_onnx : string → string → list Z → list Z → res unit;
  quantizer_from_pretrained : string → string → res Q;
  entropy : Z;
  permutation : Z → nat → list nat;
  shard_contiguous : bool;
  config_from_pretrained : string → res ModelConfig;
  align_labels_with_mapping : Dataset → list (string * Z) → string → res Dataset;
  load_quantized_model : string → list string → res Model;
  evaluation_loop : Model → list Row → res (list (string * V));
  open_for_writing : string → res unit;
  float_repr : V → string
}.

(** *** Effects: the calls a run makes, in order *)

Inductive info :=
  | OptimizationParameters (o : OptimizationArguments V)
  | EvaluateBanner.

Inductive event :=
  | LogInfo (msg : info)
  | LogWarning (model_label_mapping : list (string * Z)) (dataset_label_feature : Feature)
  | Makedirs (dir : string)
  | LoadDataset (name : string)
  | LoadImageFolder (data_files : list (string * string))
  | LoadFeatureExtractor (name : string)
  | LoadMetric (name : string)
  | ExportModel (name save_dir : string) (input_shape output_shape : list Z)
  | CreateQuantizer (dir file_name : string)
  | Preprocess (num_rows : nat)
  | CleanCalibrationDataset
  | PartialFit (index num_rows : nat)
  | ComputeRanges
  | Quantize (save_dir : string)
  | LoadModelConfig (name : string)
  | AlignLabels
  | LoadQuantizedModel (path : string)
  | EvaluationLoop (num_rows : nat)
  | WriteFile (path content : string).

(** The calls that build or use calibration state, the model export, and
    the preprocessing of the calibration dataset. *)
Definition calibration_event (ev : event) : bool :=
  match ev with
  | PartialFit _ _ | ComputeRanges | Quantize _ => true
  | _ => false
  end.

Definition export_event (ev : event) : bool :=
  match ev with ExportModel _ _ _ _ => true | _ => false end.

Definition preprocess_event (ev : event) : bool :=
  match ev with Preprocess _ => true | _ => false end.

(** A computation: the events it emitted and its result. *)
Definition M (A : Type) : Type := list event * res A.

Global Instance M_ret : MRet M := λ A a, ([], Ok a).
Global Instance M_bind : MBind M := λ A B f m,
  match m.2 with
  | Ok a => (m.1 ++ (f a).1, (f a).2)
  | Raise e => (m.1, Raise e)
  end.

Definition lift {A} (r : res A) : M A := ([], r).
Definition raise {A} (e : exn) : M A := ([], Raise e).
Definition emit (ev : event) : M unit := ([ev], Ok ()).
(** A call of a collaborator: the event is emitted, then its result known. *)
Definition call {A} (ev : event) (r : res A) : M A := ([ev], r).

(** [d[key]] on a dictionary. *)
Definition getitem {A} (d : gmap string A) (key : string) : res A :=
  or_raise (d !! key) (KeyError key).

Context (w : World) `{!Quantizer}.

(** *** Lines 155-163: argument parsing *)

(** The [.json] branch unpacks the four parsed dataclasses into five
    names. *)
Definition parse_args (inv : Invocation V) : M (Args V) :=
  match inv with
  | FromJsonFile _ => raise (ValueError UnpackMismatch)
  | FromCommandLine a => mret a
  end.

(** *** Lines 231-236: [preprocess_function] *)
Definition preprocess_function (fe : FeatureExtractor) (image_size : Z)
    (example_batch : list Row) : res (list Row) :=
  mapM (λ row : Row,
          cell ← getitem row "image";
          match cell with
          | CellImage image =>
              Ok (<["pixel_values" :=
                      CellTensor (transforms w (image_mean fe) (image_std fe)
                                    image_size image)]> row)
          | _ => Raise (AttributeError "convert")
          end)
       example_batch.

(** [ds.map(function, batched=True)]: the function is not called on a
    dataset without rows; the columns it adds become features. *)
Definition map_batched (function : list Row → res (list Row)) (ds : Dataset)
    : res Dataset :=
  match rows ds with
  | [] => Ok ds
  | _ =>
      rs ← function (rows ds);
      Ok (mkDataset
            (if bool_decide ("pixel_values" ∈ column_names ds) then features ds
             else features ds ++ [("pixel_values", tensor_feature w)])
            rs)
  end.

(** [ds.shuffle(seed=seed).select(range(n))] *)
Definition shuffle_select (seed : Z) (n : Z) (ds : Dataset) : res Dataset :=
  shuffled ← shuffle (permutation w) (entropy w) (Some seed) ds;
  select shuffled (range n).

(** [load_dataset("imagefolder", data_files=data_files, ...)]: one split
    per entry of [data_files]. *)
Definition load_imagefolder (data_files : list (string * string))
    (cache : option string) : res (gmap string Dataset) :=
  splits ← mapM (λ sp : string * string,
                   ds ← load_folder w sp.2 cache; Ok (sp.1, ds))
                data_files;
  Ok (list_to_map splits).

(** Modelled from the spec: [AutoCalibrationConfig] belongs to
    [optimum.furiosa.configuration], which is not among the example's
    sources; the data model gives CalibrationConfig as the tagged variant
    MinMaxAsymmetric or PercentileAsymmetric with a percentile. *)
Definition minmax_asym (ds : Dataset) : CalibrationConfig :=
  estimator.MinMaxAsymmetric.
Definition percentiles_asym (ds : Dataset) (percentile : V) : CalibrationConfig :=
  estimator.PercentileAsymmetric percentile.

(** Lines 282-289: the calibration configuration for the selected method. *)
Definition calibration_config_for (o : OptimizationArguments V) (ds : Dataset)
    : CalibrationConfig :=
  if bool_decide (calibration_method o = "percentile_asym")
  then percentiles_asym ds (calibration_histogram_percentile o)
  else minmax_asym ds.

(** What lines 155-289 leave for the rest of the run. *)
Record Prepared := {
  p_args : Args V;
  p_dataset : gmap string Dataset;
  p_labels_column : string;
  p_feature_extractor : FeatureExtractor;
  p_image_size : Z;
  p_quantizer : Q;
  p_qconfig : QuantizationConfig;
  p_calibration_dataset : Dataset;
  p_calibration_config : CalibrationConfig
}.

(** *** Lines 155-289 *)
Definition prepare (inv : Invocation V) : M Prepared :=
  a ← parse_args inv;
  let model_args := model_args a in
  let data_args := data_args a in
  let training_args := training_args a in
  let optim_args := optim_args a in
  emit (LogInfo (OptimizationParameters optim_args));;
  (if isdir w (output_dir training_args) && negb (overwrite_output_dir training_args)
   then raise (ValueError (OutputDirExists (output_dir training_args)))
   else mret ());;
  (* Sanity checks *)
  (if missing_dataset_source data_args
   then raise (ValueError NoDatasetSource)
   else mret ());;
  call (Makedirs (output_dir training_args)) (makedirs w (output_dir training_args));;
  dataset ←
    match dataset_name data_args with
    | Some name => call (LoadDataset name) (load_hub w name)
    | None =>
        let data_files :=
          match train_dir data_args with
          | Some d => [("train", path_join d "**")]
          | None => []
          end ++
          match validation_dir data_args with
          | Some d => [("validation", path_join d "**")]
          | None => []
          end in
        call (LoadImageFolder data_files)
             (load_imagefolder data_files (cache_dir model_args))
    end;
  validation ← lift (getitem dataset "validation");
  labels_column ←
    lift (if bool_decide ("labels" ∈ column_names validation) then Ok "labels"
          else or_raise (column_names validation !! 1%nat) IndexError);
  feature_extractor ←
    call (LoadFeatureExtractor (model_name_or_path model_args))
         (feature_extractor_from_pretrained w (model_name_or_path model_args));
  image_size ← lift (getitem (size feature_extractor) "shortest_edge");
  call (LoadMetric "accuracy") (load_metric w "accuracy");;
  (* Export the model *)
  (let input_shape := [batch_size model_args; 3%Z; image_size; image_size] in
   let output_shape := [batch_size model_args; num_labels model_args] in
   call (ExportModel (model_name_or_path model_args) (output_dir training_args)
                     input_shape output_shape)
        (export_model_to_onnx w (model_name_or_path model_args)
           (output_dir training_args) input_shape output_shape));;
  (* Create the quantizer *)
  quantizer ←
    call (CreateQuantizer (output_dir training_args) "model.onnx")
         (quantizer_from_pretrained w (output_dir training_args) "model.onnx");
  let qconfig := DefaultQuantizationConfig in
  calibration_dataset ← lift (getitem dataset "train");
  calibration_dataset ←
    match num_calibration_samples optim_args with
    | Some n => lift (shuffle_select (seed training_args) n calibration_dataset)
    | None => mret calibration_dataset
    end;
  calibration_dataset ←
    call (Preprocess (len calibration_dataset))
         (map_batched (preprocess_function feature_extractor image_size)
                      calibration_dataset);
  calibration_dataset ←
    call CleanCalibrationDataset
         (clean_calibration_dataset quantizer calibration_dataset);
  let calibration_config := calibration_config_for optim_args calibration_dataset in
  mret {| p_args := a;
          p_dataset := dataset;
          p_labels_column := labels_column;
          p_feature_extractor := feature_extractor;
          p_image_size := image_size;
          p_quantizer := quantizer;
          p_qconfig := qconfig;
          p_calibration_dataset := calibration_dataset;
          p_calibration_config := calibration_config |}.

(** *** Lines 298-304: one [partial_fit] per shard *)
Fixpoint calibration_loop (num_shards batch_size : Z) (ds : Dataset)
    (cfg : CalibrationConfig) (quantizer : Q) (indices : list nat) : M Q :=
  match indices with
  | [] => mret quantizer
  | i :: rest =>
      shard ← lift (shard (shard_contiguous w) ds (Z.to_nat num_shards) i);
      quantizer ← call (PartialFit i (len shard))
                       (partial_fit quantizer shard cfg batch_size);
      calibration_loop num_shards batch_size ds cfg quantizer rest
  end.

(** *** Lines 291-305 *)
Definition calibrate (p : Prepared) : M (Q * TensorRange) :=
  let optim_args := optim_args (p_args p) in
  let calibration_dataset := p_calibration_dataset p in
  (if negb ((1 <=? num_calibration_shards optim_args)%Z
            && (num_calibration_shards optim_args <=? Z.of_nat (len calibration_dataset))%Z)
   then raise (ValueError (InvalidShards (num_calibration_shards optim_args)
                                         (len calibration_dataset)))
   else mret ());;
  quantizer ← calibration_loop (num_calibration_shards optim_args)
                 (calibration_batch_size optim_args) calibration_dataset
                 (p_calibration_config p) (p_quantizer p)
                 (range (num_calibration_shards optim_args));
  call ComputeRanges (compute_ranges quantizer).

(** *** Lines 307-312 *)
Definition apply_quantization (p : Prepared) (quantizer : Q) (ranges : TensorRange)
    : M unit :=
  let save_dir := output_dir (training_args (p_args p)) in
  call (Quantize save_dir) (quantize quantizer save_dir ranges (p_qconfig p)).

(** [ds.features[column]] *)
Definition feature_of (ds : Dataset) (column : string) : res Feature :=
  or_raise (assoc column (features ds)) (KeyError column).

(** *** Lines 314-346 *)
Definition evaluate (p : Prepared) : M unit :=
  let a := p_args p in
  if do_eval (training_args a) then
    emit (LogInfo EvaluateBanner);;
    model_config ←
      call (LoadModelConfig (model_name_or_path (model_args a)))
           (config_from_pretrained w (model_name_or_path (model_args a)));
    eval_dataset ← lift (getitem (p_dataset p) "validation");
    eval_dataset ←
      match max_eval_samples (data_args a) with
      | Some n => lift (shuffle_select (seed (training_args a)) n eval_dataset)
      | None => mret eval_dataset
      end;
    eval_dataset ←
      match align_labels_with_mapping w eval_dataset (label2id model_config)
              (p_labels_column p) with
      | Ok aligned => call AlignLabels (Ok aligned)
      | Raise _ =>
          emit AlignLabels;;
          feature ← lift (feature_of eval_dataset (p_labels_column p));
          emit (LogWarning (label2id model_config) feature);;
          mret eval_dataset
      end;
    (* Set the validation transforms: applied when the rows are read *)
    let transform := preprocess_function (p_feature_extractor p) (p_image_size p) in
    let path := path_join (output_dir (training_args a)) "model_quantized.dfg" in
    furiosa_model ←
      call (LoadQuantizedModel path)
           (load_quantized_model w path [p_labels_column p]);
    metrics ←
      call (EvaluationLoop (len eval_dataset))
           (batch ← transform (rows eval_dataset);
            evaluation_loop w furiosa_model batch);
    (* Save metrics *)
    let report := path_join (output_dir (training_args a)) "eval_results.json" in
    lift (open_for_writing w report);;
    emit (WriteFile report (json.dumps (float_repr w) 4 true metrics))
  else mret ().

(** *** [main] *)
Definition main (inv : Invocation V) : M unit :=
  p ← prepare inv;
  qr ← calibrate p;
  apply_quantization p qr.1 qr.2;;
  evaluate p.
End main.
Global Arguments World : clear implicits.
Global Arguments Quantizer : clear implicits.
Global Arguments Prepared : clear implicits.
Global Arguments event : clear implicits.
Global Arguments Cell : clear implicits.
End script.

(** ** The quantizer, with the range estimator behind [partial_fit] *)

Module furiosa.
Import datasets script.
Section quantizer.
Context {V Image Tensor Feature : Type}.
Context (leb : V → V → bool).
Context (forward : gmap string (Cell Image Tensor) → gmap string (list V)).
Context (quantiles : V → list V → option (V * V)).
(** The graph inputs of the exported model, and the quantization backend. *)
Context (model_inputs : list string).
Context (backend : string → gmap string (V * V) → res unit).

(** Modelled from the spec: [clean_calibration_dataset] is a method of
    [FuriosaAIQuantizer], which is not among the example's sources. The
    specification leaves it to the collaborators; by the comment of line
    279 it removes the columns that the calibration does not need, here
    those that are not inputs of the model. *)
Definition remove_columns (keep : list string)
    (ds : Dataset (gmap string (Cell Image Tensor)) Feature)
    : Dataset (gmap string (Cell Image Tensor)) Feature :=
  mkDataset (filter (λ f, f.1 ∈ keep) (features ds))
            (filter (λ k, k.1 ∈ keep) <$> rows ds).

(** The quantizer is accumulating min-max statistics [m]; before its first
    [partial_fit] it has none. *)
Definition running (q : option (estimator.Estimator V))
    (m : gmap string (V * V)) : Prop :=
  match q with
  | None => m = ∅
  | Some e => estimator.est_phase e = estimator.Accumulating
              ∧ estimator.est_stats e = estimator.MinMaxStats m
  end.

(** Modelled from the spec: [FuriosaAIQuantizer] is not among the example's
    sources. Its calibration state is the Range Estimator of sections 4.2
    and 4.3, created at the first [partial_fit] with the configuration
    chosen before any shard is processed; [compute_ranges] is its
    [finalize]. *)
Global Instance estimator_quantizer :
    Quantizer V Image Tensor Feature (option (estimator.Estimator V)) := {|
  clean_calibration_dataset _ ds := Ok (remove_columns model_inputs ds);
  partial_fit q shard cfg batch_size :=
    let e := default (estimator.new cfg) q in
    let r := estimator.update leb forward (Z.to_nat batch_size) e (rows shard) in
    r.2 ;; Ok (Some r.1);
  compute_ranges q :=
    e ← or_raise q StateError;
    let r := estimator.finalize quantiles e in
    Ok (Some r.1, r.2);
  quantize _ save_dir ranges _ := backend save_dir ranges
|}.
End quantizer.
End furiosa.

(** ** A small run, for evaluating the definitions *)

Module demo.
Import datasets script furiosa.

(** Values are integers, an image is one number, its tensor two. *)
Definition row (image label : Z) : gmap string (Cell Z (list Z)) :=
  {[ "image" := CellImage image; "label" := CellInt label ]}.

Definition columns : list (string * string) :=
  [("image", "Image"); ("label", "ClassLabel")].

Definition train : Dataset (gmap string (Cell Z (list Z))) string :=
  mkDataset columns [row 5 0; row (-3) 1; row 8 0; row 1 1; row 4 0].

Definition validation : Dataset (gmap string (Cell Z (list Z))) string :=
  mkDataset columns [row 2 1; row 7 0].

Definition forward (r : gmap string (Cell Z (list Z))) : gmap string (list Z) :=
  match r !! "pixel_values" with
  | Some (CellTensor t) => {[ "logits" := t ]}
  | _ => ∅
  end.

Definition quantiles (p : Z) (vs : list Z) : option (Z * Z) :=
  estimator.observed Z.leb vs.

Definition quantizer :
    Quantizer Z Z (list Z) string (option (estimator.Estimator Z)) :=
  estimator_quantizer Z.leb forward quantiles ["pixel_values"] (λ _ _, Ok ()).

Definition feature_extractor : FeatureExtractor (V := Z) :=
  {| image_mean := [0%Z]; image_std := [1%Z];
     size := {[ "shortest_edge" := 2%Z ]} |}.

Definition world (entropy : Z) (contiguous : bool)
    : World Z Z (list Z) string (option (estimator.Estimator Z)) unit := {|
  isdir _ := false;
  listdir _ := [];
  makedirs _ := Ok ();
  load_hub _ := Ok {[ "train" := train; "validation" := validation ]};
  load_folder _ _ := Ok validation;
  feature_extractor_from_pretrained _ := Ok feature_extractor;
  load_metric _ := Ok ();
  transforms _ _ image_size image := [image; (image + image_size)%Z];
  tensor_feature := "Array3D";
  export_model_to_onnx _ _ _ _ := Ok ();
  quantizer_from_pretrained _ _ := Ok None;
  entropy := entropy;
  permutation generator n := rotate (Z.to_nat generator) (seq 0 n);
  shard_contiguous := contiguous;
  config_from_pretrained _ := Ok {| label2id := [("cat", 0%Z); ("dog", 1%Z)] |};
  align_labels_with_mapping _ _ _ := Raise (KeyError "tabby");
  load_quantized_model _ _ := Ok ();
  evaluation_loop _ _ := Ok [("eval_accuracy", 1%Z)];
  open_for_writing _ := Ok ();
  float_repr z := if bool_decide (z = 1%Z) then "1.0" else "0.0"
|}.

(** The same world with an output directory that exists and is empty. *)
Definition world_with_output_dir
    : World Z Z (list Z) string (option (estimator.Estimator Z)) unit :=
  let w := world 0 false in
  {| isdir _ := true; listdir _ := [];
     makedirs := makedirs w; load_hub := load_hub w; load_folder := load_folder w;
     feature_extractor_from_pretrained := feature_extractor_from_pretrained w;
     load_metric := load_metric w; transforms := transforms w;
     tensor_feature := tensor_feature w;
     export_model_to_onnx := export_model_to_onnx w;
     quantizer_from_pretrained := quantizer_from_pretrained w;
     entropy := entropy w; permutation := permutation w;
     shard_contiguous := shard_contiguous w;
     config_from_pretrained := config_from_pretrained w;
     align_labels_with_mapping := align_labels_with_mapping w;
     load_quantized_model := load_quantized_model w;
     evaluation_loop := evaluation_loop w;
     open_for_writing := open_for_writing w; float_repr := float_repr w |}.

Definition args (name : option string) (train_dir validation_dir : option string)
    (method : string) (num_samples : option Z) (num_shards : Z) : Args Z := {|
  model_args := {| model_name_or_path := "resnet"; cache_dir := None;
                   batch_size := 1%Z; num_labels := 3%Z |};
  data_args := {| dataset_name := name; dataset_config_name := None;
                  max_seq_length := 128%Z; overwrite_cache := false;
                  max_eval_samples := None; max_predict_samples := None;
                  train_dir := train_dir; validation_dir := validation_dir |};
  training_args := {| output_dir := "out"; overwrite_output_dir := false;
                      seed := 42%Z; do_eval := true |};
  optim_args := {| quantization_approach := "static";
                   calibration_method := method;
                   num_calibration_samples := num_samples;
                   num_calibration_shards := num_shards;
                   calibration_batch_size := 2%Z;
                   calibration_histogram_percentile := 99%Z |}
|}.

(** The run [--dataset_name beans --num_calibration_samples 4
    --num_calibration_shards K]: what lines 155-289 log and leave. *)
Definition beans (num_shards : Z) : Args Z :=
  args (Some "beans") None None "minmax_asym" (Some 4%Z) num_shards.

Definition prepare_trace (num_shards : Z) : list (event Z string) :=
  [ LogInfo (OptimizationParameters (optim_args (beans num_shards)));
    Makedirs "out"; LoadDataset "beans"; LoadFeatureExtractor "resnet";
    LoadMetric "accuracy";
    ExportModel "resnet" "out" [1%Z; 3%Z; 2%Z; 2%Z] [1%Z; 3%Z];
    CreateQuantizer "out" "model.onnx"; Preprocess 4;
    CleanCalibrationDataset ].

Definition calibration_row (t : list Z) : gmap string (Cell Z (list Z)) :=
  {[ "pixel_values" := CellTensor t ]}.

Definition calibration_dataset : Dataset (gmap string (Cell Z (list Z))) string :=
  mkDataset [("pixel_values", "Array3D")]
    [ calibration_row [8; 10]%Z; calibration_row [1; 3]%Z;
      calibration_row [4; 6]%Z; calibration_row [5; 7]%Z ].

Definition prepared (num_shards : Z)
    : Prepared Z Z (list Z) string (option (estimator.Estimator Z)) := {|
  p_args := beans num_shards;
  p_dataset := {[ "train" := train; "validation" := validation ]};
  p_labels_column := "label";
  p_feature_extractor := feature_extractor;
  p_image_size := 2;
  p_quantizer := None;
  p_qconfig := DefaultQuantizationConfig;
  p_calibration_dataset := calibration_dataset;
  p_calibration_config := estimator.MinMaxAsymmetric
|}.

Definition evaluate_trace : list (event Z string) :=
  [ LogInfo EvaluateBanner; LoadModelConfig "resnet"; AlignLabels;
    LogWarning [("cat", 0%Z); ("dog", 1%Z)] "ClassLabel";
    LoadQuantizedModel "out/model_quantized.dfg"; EvaluationLoop 2;
    WriteFile "out/eval_results.json"
      (json.dumps (float_repr (world 0 false)) 4 true [("eval_accuracy", 1%Z)]) ].
End demo.

(** ** What the script leaves behind, in words for the properties *)

Module outcome.
Import datasets script.
Section rows.
Context {V Image Tensor Feature Q Model : Type}.
Context (w : World V Image Tensor Feature Q Model).

(** What [preprocess_function] makes of one row: the row with the
    transformed image under "pixel_values". *)
Definition preprocessed_row (fe : FeatureExtractor (V := V)) (image_size : Z)
    (row row' : gmap string (Cell Image Tensor)) : Prop :=
  ∃ image,
    row !! "image" = Some (CellImage image) ∧
    row' = <["pixel_values" :=
               CellTensor (transforms w (image_mean fe) (image_std fe)
                             image_size image)]> row.
End rows.

Section calls.
Context {V Feature : Type}.

(** The [partial_fit] calls on the first [j] of [num_shards] shards of [n]
    rows, in the order of the loop of line 298. *)
Definition partial_fits (n : nat) (num_shards : Z) (j : nat)
    : list (event V Feature) :=
  (λ i, PartialFit i (shard_size n (Z.to_nat num_shards) i)) <$> seq 0 j.

(** The place of a call in the script, by the line that makes it. *)
Definition stage (ev : event V Feature) : nat :=
  match ev with
  | LogInfo (OptimizationParameters _) => 0        (* line 179 *)
  | Makedirs _ => 1                                (* line 191 *)
  | LoadDataset _ | LoadImageFolder _ => 2         (* lines 197, 204 *)
  | LoadFeatureExtractor _ => 3                    (* line 217 *)
  | LoadMetric _ => 4                              (* line 238 *)
  | ExportModel _ _ _ _ => 5                       (* line 250 *)
  | CreateQuantizer _ _ => 6                       (* line 258 *)
  | Preprocess _ => 7                              (* line 272 *)
  | CleanCalibrationDataset => 8                   (* line 280 *)
  | PartialFit _ _ => 9                            (* line 300 *)
  | ComputeRanges => 10                            (* line 305 *)
  | Quantize _ => 11                               (* line 308 *)
  | LogInfo EvaluateBanner => 12                   (* line 316 *)
  | LoadModelConfig _ => 13                        (* line 318 *)
  | AlignLabels => 14                              (* line 324 *)
  | LogWarning _ _ => 15                           (* line 328 *)
  | LoadQuantizedModel _ => 16                     (* line 338 *)
  | EvaluationLoop _ => 17                         (* line 343 *)
  | WriteFile _ _ => 18                            (* line 346 *)
  end.

(** The shard of a [partial_fit] call. *)
Definition shard_of (ev : event V Feature) : nat :=
  match ev with PartialFit index _ => index | _ => 0 end.

(** [before e1 e2]: the script makes call [e1] on an earlier line than
    [e2], or both are [partial_fit] calls and [e1] is on an earlier
    shard. *)
Definition before (e1 e2 : event V Feature) : Prop :=
  stage e1 < stage e2 ∨ (stage e1 = stage e2 ∧ shard_of e1 < shard_of e2).

(** A trace in the order of the script, between two places of it. *)
Definition staged (lo hi : nat) (t : list (event V Feature)) : Prop :=
  lo ≤ hi ∧ StronglySorted before t ∧ Forall (λ ev, lo ≤ stage ev < hi) t.
End calls.
End outcome.

(** * Properties *)

(** ** Results *)

Lemma bind_Ok {A B} (f : A → res B) (m : res A) (b : B) :
  m ≫= f = Ok b ↔ ∃ a, m = Ok a ∧ f a = Ok b.
Proof.
  destruct m as [a|e]; simpl.
  - split; [eauto|]. by intros (a' & [= <-] & ?).
  - split; [done|]. by intros (? & ? & ?).
Qed.

Lemma mapM_res_Forall2 {A B} (f : A → res B) (P : A → B → Prop) (l : list A) :
  Forall (λ x, ∃ y, f x = Ok y ∧ P x y) l →
  ∃ k, mapM f l = Ok k ∧ Forall2 P l k.
Proof.
  induction 1 as [|x l (y & Hy & HP) _ (k & Hk & IH)]; simpl.
  - exists []. by split.
  - exists (y :: k). rewrite Hy. simpl. rewrite Hk. simpl. split; [done|].
    by constructor.
Qed.

Lemma mjoin_cons {A} (l : list A) (ls : list (list A)) :
  mjoin (l :: ls) = l ++ mjoin ls.
Proof. done. Qed.

(** ** Selecting and sharding *)

Section datasets_facts.
Import datasets.
Context {Row Feature : Type}.
Implicit Types ds : Dataset Row Feature.

Lemma select_Ok ds indices ds' :
  select ds indices = Ok ds' ↔
  features ds' = features ds ∧
  Forall2 (λ i r, rows ds !! i = Some r) indices (rows ds').
Proof.
  unfold select. destruct ds' as [fs rs]. simpl.
  destruct (mapM _ indices) as [rs'|] eqn:Hm; simpl.
  - apply mapM_Some in Hm. split.
    + by intros [= <- <-].
    + intros [-> Hrs]. f_equal. apply mapM_Some in Hrs.
      apply mapM_Some_2 in Hm. congruence.
  - split; [done|]. intros [_ Hrs]. apply mapM_Some_2 in Hrs. congruence.
Qed.

Lemma select_len ds indices ds' :
  select ds indices = Ok ds' → len ds' = length indices.
Proof.
  intros [_ H]%select_Ok. unfold len. symmetry. by eapply Forall2_length.
Qed.

Lemma select_in_range ds indices :
  Forall (λ i, i < len ds) indices → ∃ ds', select ds indices = Ok ds'.
Proof.
  intros Hall. unfold select.
  destruct (mapM_is_Some_2 (λ i, rows ds !! i) indices) as [rs ->]; [|simpl; eauto].
  eapply Forall_impl; [done|]. intros i Hi. by apply lookup_lt_is_Some_2.
Qed.

Lemma length_arange_from count start step :
  length (arange_from count start step) = count.
Proof. revert start. induction count; intros; simpl; auto. Qed.

Lemma arange_from_bound count start step bound :
  (0 < count → start + (count - 1) * step < bound) →
  Forall (λ x, x < bound) (arange_from count start step).
Proof.
  revert start. induction count as [|c IH]; intros start H; simpl; [done|].
  constructor; [nia|]. apply IH. intros Hc. nia.
Qed.

Lemma arange_count n num_shards index :
  index < num_shards →
  (n - index + num_shards - 1) / num_shards = shard_size n num_shards index.
Proof.
  intros Hi. unfold shard_size.
  pose proof (Nat.div_mod_eq n num_shards) as Hn.
  pose proof (Nat.mod_upper_bound n num_shards ltac:(lia)) as Hr.
  set (q := n / num_shards) in *. set (r := n `mod` num_shards) in *.
  symmetry. destruct (Nat.ltb_spec index r).
  - apply (Nat.div_unique _ _ _ (r - index - 1)); [lia|].
    rewrite Nat.mul_add_distr_l. lia.
  - rewrite Nat.add_0_r. destruct (decide (index ≤ n)).
    + apply (Nat.div_unique _ _ _ (r + num_shards - 1 - index)); lia.
    + assert (q = 0) as -> by nia.
      apply (Nat.div_unique _ _ _ (num_shards - 1)); lia.
Qed.

Lemma length_shard_indices contiguous n num_shards index :
  index < num_shards →
  length (shard_indices contiguous n num_shards index)
  = shard_size n num_shards index.
Proof.
  intros Hi. unfold shard_indices. destruct contiguous.
  - rewrite length_seq. unfold shard_size. lia.
  - unfold arange. by rewrite length_arange_from, arange_count.
Qed.

Lemma shard_indices_bound contiguous n num_shards index :
  index < num_shards →
  Forall (λ x, x < n) (shard_indices contiguous n num_shards index).
Proof.
  intros Hi. unfold shard_indices.
  pose proof (Nat.div_mod_eq n num_shards) as Hn.
  pose proof (Nat.mod_upper_bound n num_shards ltac:(lia)) as Hr.
  destruct contiguous.
  - apply Forall_seq. intros j Hj.
    destruct (Nat.ltb_spec index (n `mod` num_shards)); nia.
  - unfold arange. apply arange_from_bound. rewrite arange_count by done.
    unfold shard_size. destruct (Nat.ltb_spec index (n `mod` num_shards)); nia.
Qed.

Lemma shard_Ok contiguous ds num_shards index :
  index < num_shards →
  ∃ s, shard contiguous ds num_shards index = Ok s ∧
       len s = shard_size (len ds) num_shards index.
Proof.
  intros Hi. unfold shard.
  destruct (Nat.ltb_spec index num_shards) as [_|]; [simpl|lia].
  destruct (select_in_range ds
              (shard_indices contiguous (len ds) num_shards index)) as [s Hs].
  { by apply shard_indices_bound. }
  exists s. split; [done|]. apply select_len in Hs.
  by rewrite Hs, length_shard_indices.
Qed.
End datasets_facts.

Section shard_sizes.
Import datasets.
Context {Row Feature : Type}.
Implicit Types ds : Dataset Row Feature.

Lemma sum_shard_size_prefix n num_shards m :
  sum_list (shard_size n num_shards <$> seq 0 m)
  = m * (n / num_shards) + m `min` (n `mod` num_shards).
Proof.
  induction m as [|m IH]; [done|].
  rewrite seq_S, fmap_app, sum_list_with_app, IH.
  change (sum_list (shard_size n num_shards <$> [0 + m]))
    with (shard_size n num_shards m + 0).
  unfold shard_size. destruct (Nat.ltb_spec m (n `mod` num_shards)); lia.
Qed.

Lemma sum_shard_size n num_shards :
  0 < num_shards → sum_list (shard_size n num_shards <$> seq 0 num_shards) = n.
Proof.
  intros HK. rewrite sum_shard_size_prefix.
  pose proof (Nat.div_mod_eq n num_shards).
  pose proof (Nat.mod_upper_bound n num_shards ltac:(lia)). lia.
Qed.

Lemma shards_Ok contiguous ds num_shards :
  ∃ shards,
    mapM (shard contiguous ds num_shards) (seq 0 num_shards) = Ok shards ∧
    Forall2 (λ i s, shard contiguous ds num_shards i = Ok s ∧
                    len s = shard_size (len ds) num_shards i)
            (seq 0 num_shards) shards.
Proof.
  apply mapM_res_Forall2, Forall_seq. intros i Hi.
  destruct (shard_Ok contiguous ds num_shards i) as (s & ? & ?); [lia|]. eauto.
Qed.

(** C4. For all 1 <= K <= N, [shard(K, i)] for i = 0 .. K-1 succeeds on a
    dataset of N rows, in the striped and in the contiguous layout; shard i
    has N / K rows, and one more when i < N mod K (the remainder goes to
    the first shards); the sizes sum to N and differ pairwise by at most
    one. *)
Theorem shard_sizes_near_equal contiguous ds (num_shards : nat) :
  1 ≤ num_shards ≤ len ds →
  ∃ shards,
    mapM (shard contiguous ds num_shards) (seq 0 num_shards) = Ok shards ∧
    length shards = num_shards ∧
    (∀ i s, shards !! i = Some s →
       len s = len ds / num_shards
               + (if i <? len ds `mod` num_shards then 1 else 0)) ∧
    sum_list (len <$> shards) = len ds ∧
    (∀ s1 s2, s1 ∈ shards → s2 ∈ shards → len s1 ≤ len s2 + 1).
Proof.
  intros HK. destruct (shards_Ok contiguous ds num_shards) as (shards & Hm & Hall).
  exists shards. split; [done|].
  assert (length shards = num_shards) as Hlen.
  { apply Forall2_length in Hall. by rewrite length_seq in Hall. }
  assert (∀ i s, shards !! i = Some s → len s = shard_size (len ds) num_shards i)
    as Hsize.
  { intros i s Hs.
    destruct (Forall2_lookup_r _ _ _ _ _ Hall Hs) as (j & Hj & _ & ?).
    apply lookup_seq in Hj as [-> _]. done. }
  split_and!; [done|exact Hsize| |].
  - etrans; [|apply (sum_shard_size (len ds) num_shards); lia]. f_equal.
    apply list_eq_Forall2, Forall2_fmap, Forall2_flip.
    eapply Forall2_impl; [done|]. by intros i s [_ ->].
  - intros s1 s2 [i1 H1]%list_elem_of_lookup [i2 H2]%list_elem_of_lookup.
    rewrite (Hsize _ _ H1), (Hsize _ _ H2). unfold shard_size.
    repeat case_match; lia.
Qed.
End shard_sizes.

(** ** The min-max merge *)

Section minmax_algebra.
Import estimator.
Context {V : Type} (leb : V → V → bool).
(** The order of the values is total (no NaN among the observations). *)
Hypothesis leb_total : ∀ a b, leb a b = true ∨ leb b a = true.
Hypothesis leb_trans : ∀ a b c, leb a b = true → leb b c = true → leb a c = true.
Hypothesis leb_antisym : ∀ a b, leb a b = true → leb b a = true → a = b.

Local Lemma leb_false a b : leb a b = false → leb b a = true.
Proof. intros H. destruct (leb_total a b); congruence. Qed.

Local Ltac order :=
  unfold vmin, vmax;
  repeat match goal with
    | H : leb ?a ?b = _ |- context [leb ?a ?b] => rewrite H
    | |- context [leb ?a ?b] => is_var a; is_var b; destruct (leb a b) eqn:?
    end;
  repeat match goal with
    | H : leb _ _ = false |- _ => apply leb_false in H
    end;
  first [ reflexivity | congruence
        | apply leb_antisym; eauto using leb_trans ].

Lemma vmin_comm a b : vmin leb a b = vmin leb b a.
Proof. order. Qed.
Lemma vmax_comm a b : vmax leb a b = vmax leb b a.
Proof. order. Qed.
Lemma vmin_assoc a b c : vmin leb a (vmin leb b c) = vmin leb (vmin leb a b) c.
Proof. order. Qed.
Lemma vmax_assoc a b c : vmax leb a (vmax leb b c) = vmax leb (vmax leb a b) c.
Proof. order. Qed.

Lemma merge_comm a b : merge leb a b = merge leb b a.
Proof. unfold merge. by rewrite vmin_comm, vmax_comm. Qed.

Lemma merge_assoc a b c :
  merge leb a (merge leb b c) = merge leb (merge leb a b) c.
Proof. unfold merge. simpl. by rewrite vmin_assoc, vmax_assoc. Qed.

Lemma merge_stats_comm m1 m2 : merge_stats leb m1 m2 = merge_stats leb m2 m1.
Proof.
  apply map_eq. intros t. unfold merge_stats. rewrite !lookup_union_with.
  destruct (m1 !! t), (m2 !! t); simpl; try done. by rewrite merge_comm.
Qed.

Lemma merge_stats_assoc m1 m2 m3 :
  merge_stats leb m1 (merge_stats leb m2 m3)
  = merge_stats leb (merge_stats leb m1 m2) m3.
Proof.
  apply map_eq. intros t. unfold merge_stats. rewrite !lookup_union_with.
  destruct (m1 !! t), (m2 !! t), (m3 !! t); simpl; try done.
  by rewrite merge_assoc.
Qed.

Lemma merge_stats_empty_l m : merge_stats leb ∅ m = m.
Proof.
  apply map_eq. intros t. unfold merge_stats.
  rewrite lookup_union_with, lookup_empty. by destruct (m !! t).
Qed.

Lemma merge_stats_empty_r m : merge_stats leb m ∅ = m.
Proof. by rewrite merge_stats_comm, merge_stats_empty_l. Qed.
End minmax_algebra.

(** ** The shards partition the dataset *)

Section shard_partition.
Import datasets.
Context {Row Feature : Type}.
Implicit Types ds : Dataset Row Feature.

Lemma elem_of_arange_from x count start step :
  x ∈ arange_from count start step ↔ ∃ j, j < count ∧ x = start + j * step.
Proof.
  revert start. induction count as [|c IH]; intros start; simpl.
  - rewrite elem_of_nil. split; [done|]. intros (j & ? & _). lia.
  - rewrite elem_of_cons, IH. split.
    + intros [->|(j & ? & ->)]; [exists 0|exists (S j)]; split; lia.
    + intros ([|j] & ? & ->); [left; lia|]. right. exists j. split; lia.
Qed.

Lemma NoDup_arange_from count start step :
  0 < step → NoDup (arange_from count start step).
Proof.
  intros Hs. revert start. induction count as [|c IH]; intros start; simpl.
  - constructor.
  - constructor; [|apply IH]. rewrite elem_of_arange_from.
    intros (j & _ & ?). nia.
Qed.

Lemma elem_of_arange x index n num_shards :
  index < num_shards →
  x ∈ arange index n num_shards ↔ x < n ∧ x `mod` num_shards = index.
Proof.
  intros Hi. unfold arange. rewrite elem_of_arange_from. split.
  - intros (j & Hj & ->). split.
    + assert (index + j * num_shards ∈ arange index n num_shards) as Hin.
      { unfold arange. apply elem_of_arange_from. eauto. }
      apply (proj1 (Forall_forall _ _)
               (shard_indices_bound false n num_shards index Hi) _ Hin).
    + rewrite Nat.Div0.mod_add. by apply Nat.mod_small.
  - intros [Hx <-]. exists (x / num_shards). split.
    + apply Nat.div_le_lower_bound; [lia|].
      pose proof (Nat.div_mod_eq x num_shards). lia.
    + pose proof (Nat.div_mod_eq x num_shards). lia.
Qed.
Lemma striped_prefix n num_shards m :
  m ≤ num_shards →
  NoDup (mjoin (shard_indices false n num_shards <$> seq 0 m)) ∧
  ∀ x, x ∈ mjoin (shard_indices false n num_shards <$> seq 0 m)
       ↔ x < n ∧ x `mod` num_shards < m.
Proof.
  induction m as [|m IH]; intros Hm.
  - simpl. split; [constructor|]. intros x. rewrite elem_of_nil. lia.
  - destruct IH as [Hnd Hel]; [lia|].
    rewrite seq_S, fmap_app, join_app. simpl. rewrite app_nil_r.
    change (shard_indices false n num_shards (0 + m))
      with (arange m n num_shards). split.
    + apply NoDup_app. split_and!; [done| |apply NoDup_arange_from; lia].
      intros x Hx%Hel. rewrite elem_of_arange by lia. lia.
    + intros x. rewrite elem_of_app, Hel, elem_of_arange by lia. lia.
Qed.

Lemma contiguous_prefix n num_shards m :
  mjoin (shard_indices true n num_shards <$> seq 0 m)
  = seq 0 (n / num_shards * m + m `min` (n `mod` num_shards)).
Proof.
  induction m as [|m IH]; [by rewrite Nat.mul_0_r|].
  rewrite seq_S, fmap_app, join_app, IH. simpl. rewrite app_nil_r.
  unfold shard_indices.
  set (a := n / num_shards * m + m `min` (n `mod` num_shards)).
  rewrite <-seq_app. f_equal.
  change (match n `mod` num_shards with 0 => 0 | S m' => S (m `min` m') end)
    with (S m `min` (n `mod` num_shards)).
  unfold a. destruct (Nat.ltb_spec m (n `mod` num_shards)); lia.
Qed.

(** Every index of the dataset is in exactly one shard. *)
Lemma shard_indices_partition contiguous n num_shards :
  0 < num_shards →
  mjoin (shard_indices contiguous n num_shards <$> seq 0 num_shards) ≡ₚ seq 0 n.
Proof.
  intros HK. destruct contiguous.
  - rewrite contiguous_prefix. apply Permutation_refl'. f_equal.
    pose proof (Nat.div_mod_eq n num_shards).
    pose proof (Nat.mod_upper_bound n num_shards ltac:(lia)). lia.
  - destruct (striped_prefix n num_shards num_shards) as [Hnd Hel]; [done|].
    apply NoDup_Permutation; [done|apply NoDup_seq|].
    intros x. rewrite Hel, elem_of_seq.
    pose proof (Nat.mod_upper_bound x num_shards ltac:(lia)). lia.
Qed.

Lemma lookup_all ds : (λ i, rows ds !! i) <$> seq 0 (len ds) = Some <$> rows ds.
Proof.
  unfold len. induction (rows ds) as [|r rs IH] using rev_ind; [done|].
  rewrite length_app. simpl. rewrite Nat.add_1_r, seq_S, !fmap_app. simpl.
  rewrite lookup_app_r, Nat.sub_diag by lia. simpl. f_equal.
  rewrite <-IH. apply list_fmap_ext. intros i j [-> ?]%lookup_seq.
  by rewrite lookup_app_l by lia.
Qed.

Lemma select_rows ds indices ds' :
  select ds indices = Ok ds' →
  Some <$> rows ds' = (λ i, rows ds !! i) <$> indices.
Proof.
  intros [_ H]%select_Ok. induction H as [|i r idx rs Hr _ IH]; [done|].
  rewrite !fmap_cons. by rewrite Hr, IH.
Qed.

(** The rows of the shards together are the rows of the dataset. *)
Lemma shards_partition contiguous ds num_shards shards :
  0 < num_shards →
  mapM (shard contiguous ds num_shards) (seq 0 num_shards) = Ok shards →
  mjoin (rows <$> shards) ≡ₚ rows ds.
Proof.
  intros HK Hm.
  destruct (shards_Ok contiguous ds num_shards) as (shards' & Hm' & Hall).
  assert (shards' = shards) as -> by congruence.
  assert (Some <$> mjoin (rows <$> shards)
          = (λ i, rows ds !! i)
              <$> mjoin (shard_indices contiguous (len ds) num_shards
                           <$> seq 0 num_shards)) as Heq.
  { clear Hm Hm'. induction Hall as [|i s idx ss [Hs _] _ IH]; [done|].
    rewrite !fmap_cons, !mjoin_cons, !fmap_app, IH. f_equal.
    unfold shard in Hs. destruct (negb _); [done|]. by apply select_rows. }
  assert (∀ l : list Row, omap id (Some <$> l) = l) as Hid.
  { induction l as [|r l IH]; [done|]. csimpl. by rewrite IH. }
  rewrite <-(Hid (mjoin _)), Heq, shard_indices_partition by done.
  by rewrite lookup_all, Hid.
Qed.
End shard_partition.

(** ** The range estimator under the min-max policy *)

Section estimator_facts.
Import estimator.
Context {V Sample : Type} (leb : V → V → bool).
Context (forward : Sample → gmap string (list V)).
Context (quantiles : V → list V → option (V * V)).

Lemma concat_batches_upto fuel batch_size (l : list Sample) :
  mjoin (batches_upto fuel batch_size l) = l.
Proof.
  revert l. induction fuel as [|f IH]; intros [|x l]; simpl; try done.
  - by rewrite app_nil_r.
  - change (mjoin (batches_upto f batch_size (drop batch_size (x :: l))))
      with ((λ k, mjoin (batches_upto f batch_size k)) (drop batch_size (x :: l))).
    simpl. rewrite IH. apply (take_drop batch_size (x :: l)).
Qed.

Lemma concat_batches batch_size (l : list Sample) :
  mjoin (batches batch_size l) = l.
Proof.
  unfold batches. destruct batch_size, l; simpl; try done.
  - by rewrite app_nil_r.
  - apply (concat_batches_upto (S (length l)) (S batch_size) (s :: l)).
Qed.

(** After a finalize, an update is refused and changes nothing. *)
Lemma update_finalized batch_size e shard :
  est_phase e = Finalized →
  update leb forward batch_size e shard = (e, Raise StateError).
Proof. intros H. unfold update. by rewrite H. Qed.

Hypothesis leb_total : ∀ a b, leb a b = true ∨ leb b a = true.
Hypothesis leb_trans : ∀ a b c, leb a b = true → leb b c = true → leb a c = true.
Hypothesis leb_antisym : ∀ a b, leb a b = true → leb b a = true → a = b.

Lemma foldl_merge_stats m (l : list Sample) :
  foldl (λ acc s, merge_stats leb acc (sample_stats leb forward s)) m l
  = merge_stats leb m (batch_stats leb forward l).
Proof.
  unfold batch_stats. revert m. induction l as [|s l IH]; intros m; simpl.
  - by rewrite merge_stats_empty_r.
  - rewrite IH, (IH (merge_stats _ ∅ _)), merge_stats_empty_l by done.
    by rewrite merge_stats_assoc.
Qed.

Lemma batch_stats_cons s l :
  batch_stats leb forward (s :: l)
  = merge_stats leb (sample_stats leb forward s) (batch_stats leb forward l).
Proof.
  unfold batch_stats at 1. simpl.
  by rewrite foldl_merge_stats, merge_stats_empty_l.
Qed.

Lemma batch_stats_app l1 l2 :
  batch_stats leb forward (l1 ++ l2)
  = merge_stats leb (batch_stats leb forward l1) (batch_stats leb forward l2).
Proof.
  unfold batch_stats at 1 2. by rewrite foldl_app, !foldl_merge_stats, merge_stats_empty_l.
Qed.

(** The statistics of a batch do not depend on the order of its samples. *)
Lemma batch_stats_Permutation l1 l2 :
  l1 ≡ₚ l2 → batch_stats leb forward l1 = batch_stats leb forward l2.
Proof.
  induction 1 as [|s l1 l2 _ IH|s1 s2 l|l1 l2 l3 _ IH1 _ IH2].
  - done.
  - by rewrite !batch_stats_cons, IH.
  - rewrite !batch_stats_cons, !merge_stats_assoc by done.
    f_equal. by apply merge_stats_comm.
  - congruence.
Qed.

Lemma foldl_fold_batch m (bs : list (list Sample)) :
  foldl (fold_batch leb forward) (MinMaxStats m) bs
  = MinMaxStats (merge_stats leb m (batch_stats leb forward (mjoin bs))).
Proof.
  revert m. induction bs as [|b bs IH]; intros m.
  - change (batch_stats leb forward (mjoin [])) with (∅ : gmap string (V * V)).
    by rewrite merge_stats_empty_r.
  - rewrite mjoin_cons, batch_stats_app, merge_stats_assoc by done.
    apply (IH (merge_stats leb m (batch_stats leb forward b))).
Qed.

(** An update in the accumulating state merges the shard's observed
    (min, max) into the running ones, whatever the batch size. *)
Lemma update_minmax batch_size e m shard :
  est_phase e = Accumulating →
  est_stats e = MinMaxStats m →
  update leb forward batch_size e shard
  = (mkEstimator Accumulating
       (MinMaxStats (merge_stats leb m (batch_stats leb forward shard)))
       (est_ranges e), Ok ()).
Proof.
  intros Hp Hs. unfold update. rewrite Hp, Hs, foldl_fold_batch.
  by rewrite concat_batches.
Qed.
End estimator_facts.

(** ** Computations of the script *)

Section M_facts.
Import script.
Context {V Feature : Type}.
Abbreviation M := (@M V Feature).

Lemma M_bind_trace {A B} (m : M A) (f : A → M B) :
  (m ≫= f).1 = m.1 ++ match m.2 with Ok a => (f a).1 | Raise _ => [] end.
Proof. destruct m as [t [a|e]]; simpl; [done|by rewrite app_nil_r]. Qed.

Lemma M_bind_result {A B} (m : M A) (f : A → M B) :
  (m ≫= f).2 = match m.2 with Ok a => (f a).2 | Raise e => Raise e end.
Proof. by destruct m as [t [a|e]]. Qed.

Lemma M_bind_Ok {A B} (m : M A) (f : A → M B) t a :
  m = (t, Ok a) → m ≫= f = (t ++ (f a).1, (f a).2).
Proof. by intros ->. Qed.

Lemma M_bind_Raise {A B} (m : M A) (f : A → M B) t e :
  m = (t, Raise e) → m ≫= f = (t, Raise e).
Proof. by intros ->. Qed.

Lemma M_bind_assoc {A B C} (m : M A) (f : A → M B) (g : B → M C) :
  (m ≫= f) ≫= g = m ≫= (λ x, f x ≫= g).
Proof.
  destruct m as [t [a|e]]; [|done]. unfold mbind, M_bind. simpl.
  destruct (f a) as [t' [b|e]]; simpl; [|done].
  by rewrite app_assoc.
Qed.

Lemma M_bind_mret {A B} (a : A) (f : A → M B) : mret a ≫= f = f a.
Proof. unfold mbind, M_bind. simpl. by destruct (f a). Qed.

Lemma M_bind_cong {A B} (m1 m2 : M A) (f g : A → M B) :
  m1 = m2 → (∀ x, f x = g x) → m1 ≫= f = m2 ≫= g.
Proof.
  intros -> Hfg. destruct m2 as [t [a|e]]; [|done].
  unfold mbind, M_bind. simpl. by rewrite Hfg.
Qed.

Lemma emit_bind {B} ev (f : () → M B) :
  emit ev ≫= f = (ev :: (f ()).1, (f ()).2).
Proof. done. Qed.

(** Running a computation forward, one completed call at a time. *)
Lemma call_bind_Ok {A B} ev (x : A) (f : A → M B) t r :
  f x = (t, r) → call ev (Ok x) ≫= f = (ev :: t, r).
Proof. unfold mbind, M_bind. simpl. by intros ->. Qed.

Lemma emit_bind_Ok {B} ev (f : () → M B) t r :
  f () = (t, r) → emit ev ≫= f = (ev :: t, r).
Proof. apply call_bind_Ok. Qed.

Lemma lift_bind_Ok {A B} (x : A) (f : A → M B) t r :
  f x = (t, r) → lift (Ok x) ≫= f = (t, r).
Proof. unfold mbind, M_bind. simpl. by intros ->. Qed.

Lemma mret_bind_Ok {A B} (x : A) (f : A → M B) t r :
  f x = (t, r) → mret x ≫= f = (t, r).
Proof. apply lift_bind_Ok. Qed.

(** A computation that returns has returned from its first part. *)
Lemma M_bind_inv_Ok {A B} (m : M A) (f : A → M B) t b :
  m ≫= f = (t, Ok b) →
  ∃ t1 a t2, m = (t1, Ok a) ∧ f a = (t2, Ok b) ∧ t = t1 ++ t2.
Proof.
  destruct m as [t1 [a|e]]; [|done]. unfold mbind, M_bind. simpl.
  destruct (f a) as [t2 r] eqn:Hf. simpl. intros [= <- ->]. eauto 6.
Qed.

Lemma guard_inv (c : bool) (e : exn) (t : list (event V Feature)) u :
  (if c then raise e else mret ()) = (t, Ok u) → c = false ∧ t = [].
Proof. destruct c; [done|]. by intros [= <-]. Qed.
End M_facts.

(** [step H]: the first call of the computation in [H], which returned. *)
Ltac step H :=
  let t1 := fresh "t" in
  let t2 := fresh "t" in
  let x := fresh "x" in
  let Hx := fresh "Hx" in
  apply M_bind_inv_Ok in H as (t1 & x & t2 & Hx & H & ->);
  cbv beta zeta in H.

(** [unravel]: what the calls that returned have emitted and returned. *)
Ltac unravel :=
  repeat match goal with
    | H : script.emit _ = (_, Ok _) |- _ => injection H as <-
    | H : script.call _ _ = (_, Ok _) |- _ =>
        unfold script.call in H; injection H as <- H
    | H : script.lift _ = (_, Ok _) |- _ =>
        unfold script.lift in H; injection H as <- H
    | H : mret _ = (_, Ok _) |- _ => injection H as <- <-
    | H : (if _ then script.raise _ else mret ()) = (_, Ok _) |- _ =>
        apply guard_inv in H as [H ->]
    end.

(** [forward]: past the next call, whose result is known. *)
Ltac forward :=
  rewrite ?M_bind_assoc;
  first [ apply call_bind_Ok | apply emit_bind_Ok
        | apply lift_bind_Ok | apply mret_bind_Ok ];
  cbv beta.

(** ** Calibration with the range estimator behind the quantizer *)

Section calibration.
Import datasets estimator script furiosa.
Context {V Image Tensor Feature Model : Type}.
Context (leb : V → V → bool).
Context (forward : gmap string (Cell Image Tensor) → gmap string (list V)).
Context (quantiles : V → list V → option (V * V)).
Context (model_inputs : list string).
Context (backend : string → gmap string (V * V) → res unit).

Abbreviation quantizer :=
  (estimator_quantizer leb forward quantiles model_inputs backend).
Abbreviation World :=
  (World V Image Tensor Feature (option (Estimator V)) Model).
Abbreviation Prepared :=
  (Prepared V Image Tensor Feature (option (Estimator V))).
Abbreviation Dataset := (Dataset (gmap string (Cell Image Tensor)) Feature).

Hypothesis leb_total : ∀ a b, leb a b = true ∨ leb b a = true.
Hypothesis leb_trans : ∀ a b c, leb a b = true → leb b c = true → leb a c = true.
Hypothesis leb_antisym : ∀ a b, leb a b = true → leb b a = true → a = b.

Lemma partial_fit_minmax q m (shard : Dataset) batch_size :
  running q m →
  ∃ e, partial_fit (Quantizer := quantizer) q shard MinMaxAsymmetric batch_size
       = Ok (Some e) ∧
       running (Some e) (merge_stats leb m (batch_stats leb forward (rows shard))).
Proof.
  intros Hq. simpl.
  assert (running (Some (default (new MinMaxAsymmetric) q)) m) as [Hp Hs].
  { destruct q as [e|]; simpl in *; [done|]. by subst. }
  rewrite (update_minmax leb forward leb_total leb_trans leb_antisym _ _ m)
    by done.
  simpl. eexists. split; [done|]. by split.
Qed.

Lemma calibration_loop_minmax (w : World) num_shards batch_size
    (ds : Dataset) indices q m :
  running q m →
  Forall (λ i, i < Z.to_nat num_shards) indices →
  ∃ shards q',
    mapM (shard (shard_contiguous w) ds (Z.to_nat num_shards)) indices
      = Ok shards ∧
    (calibration_loop (H := quantizer) w num_shards batch_size ds
       MinMaxAsymmetric q indices).2 = Ok q' ∧
    running q' (merge_stats leb m (batch_stats leb forward (mjoin (rows <$> shards)))) ∧
    (indices ≠ [] → is_Some q').
Proof.
  intros Hq Hall. revert q m Hq.
  induction Hall as [|i indices Hi _ IH]; intros q m Hq.
  - exists [], q. split_and!; [done|done| |done].
    change (batch_stats leb forward (mjoin (rows <$> [])))
      with (∅ : gmap string (V * V)).
    by rewrite merge_stats_empty_r.
  - destruct (shard_Ok (shard_contiguous w) ds _ i Hi) as (s & Hs & _).
    destruct (partial_fit_minmax q m s batch_size Hq)
      as (e & He & Hrun).
    destruct (IH _ _ Hrun) as (shards & q' & Hm & Hloop & Hq' & Hsome).
    exists (s :: shards), q'. split_and!.
    + simpl. rewrite Hs. simpl. by rewrite Hm.
    + cbn [calibration_loop]. rewrite !M_bind_result. unfold lift, call.
      cbn [snd]. rewrite Hs, He. done.
    + rewrite fmap_cons, mjoin_cons, batch_stats_app, merge_stats_assoc by done.
      done.
    + intros _. destruct indices; [|by apply Hsome].
      simpl in Hloop. by injection Hloop as <-.
Qed.
(** Calibration of a valid number of shards with a fresh quantizer returns
    the (min, max) observed over the whole calibration dataset. *)
Lemma calibrate_minmax (w : World) (p : Prepared) :
  p_calibration_config p = MinMaxAsymmetric →
  p_quantizer p = None →
  (1 ≤ num_calibration_shards (optim_args (p_args p))
     ≤ Z.of_nat (len (p_calibration_dataset p)))%Z →
  ∃ q, (calibrate (H := quantizer) w p).2
       = Ok (q, batch_stats leb forward (rows (p_calibration_dataset p))).
Proof.
  intros Hcfg Hq HK. unfold calibrate.
  set (o := optim_args (p_args p)) in *. set (ds := p_calibration_dataset p) in *.
  destruct (Z.leb_spec 1 (num_calibration_shards o)) as [_|]; [|lia].
  destruct (Z.leb_spec (num_calibration_shards o) (Z.of_nat (len ds))) as [_|]; [|lia].
  cbn [andb negb]. rewrite Hcfg, Hq, !M_bind_result. cbn [snd mret M_ret].
  destruct (calibration_loop_minmax w (num_calibration_shards o)
              (calibration_batch_size o) ds (range (num_calibration_shards o)) None ∅)
    as (shards & q' & Hm & -> & Hrun & Hsome); [done| |].
  { apply Forall_seq. lia. }
  destruct Hsome as [e ->].
  { unfold range. destruct (Z.to_nat _) eqn:?; [lia|done]. }
  destruct Hrun as [_ Hstats]. unfold call. cbn [snd]. simpl. rewrite Hstats.
  exists (Some (mkEstimator Finalized (est_stats e) (Some (ranges_of quantiles (est_stats e))))).
  rewrite Hstats. simpl. do 2 f_equal.
  rewrite merge_stats_empty_l.
  apply batch_stats_Permutation; [done..|].
  apply (shards_partition (shard_contiguous w) ds
           (Z.to_nat (num_calibration_shards o))); [lia|done].
Qed.

(** C2. Under the min-max policy, calibrating the same calibration dataset
    in K shards and in K' shards (one [partial_fit] per shard, then
    [compute_ranges]), with any batch sizes and in the striped or the
    contiguous layout, returns the same TensorRange: the (min, max) of
    every tensor over the whole dataset. The values are ordered totally
    (no NaN), so the merge is associative and commutative and no
    tolerance is needed. *)
Theorem minmax_ranges_independent_of_sharding (w w' : World) (p p' : Prepared) :
  p_calibration_config p = MinMaxAsymmetric →
  p_calibration_config p' = MinMaxAsymmetric →
  p_quantizer p = None →
  p_quantizer p' = None →
  p_calibration_dataset p' = p_calibration_dataset p →
  (1 ≤ num_calibration_shards (optim_args (p_args p))
     ≤ Z.of_nat (len (p_calibration_dataset p)))%Z →
  (1 ≤ num_calibration_shards (optim_args (p_args p'))
     ≤ Z.of_nat (len (p_calibration_dataset p)))%Z →
  ∃ q q' ranges,
    (calibrate (H := quantizer) w p).2 = Ok (q, ranges) ∧
    (calibrate (H := quantizer) w' p').2 = Ok (q', ranges) ∧
    ranges = batch_stats leb forward (rows (p_calibration_dataset p)).
Proof.
  intros Hcfg Hcfg' Hq Hq' Hds HK HK'.
  destruct (calibrate_minmax w p) as [q Hc]; [done..|].
  destruct (calibrate_minmax w' p') as [q' Hc']; [done..|by rewrite Hds|].
  rewrite Hds in Hc'. eauto 6.
Qed.
End calibration.

(** ** State protection *)

Section state_protection.
Import estimator.
Context {V Sample : Type} (leb : V → V → bool).
Context (forward : Sample → gmap string (list V)).
Context (quantiles : V → list V → option (V * V)).

(** C8. Once [finalize] has been called on the estimator, under either
    policy and after any updates, an [update] fails with [StateError] and
    leaves the estimator as it was: its statistics, and the TensorRange
    mapping that [finalize] handed out, which a later [finalize] returns
    again. *)
Theorem update_after_finalize_rejected (e : Estimator V) batch_size shard :
  let e' := (finalize quantiles e).1 in
  let ranges := (finalize quantiles e).2 in
  update leb forward batch_size e' shard = (e', Raise StateError) ∧
  est_ranges e' = Some ranges ∧
  est_stats e' = est_stats e ∧
  finalize quantiles (update leb forward batch_size e' shard).1 = (e', ranges).
Proof.
  intros e' ranges. subst e' ranges. cbn [finalize fst snd].
  by rewrite update_finalized.
Qed.
End state_protection.

Section quantizer_state_protection.
Import datasets estimator script furiosa.
Context {V Image Tensor Feature : Type}.
Context (leb : V → V → bool).
Context (forward : gmap string (Cell Image Tensor) → gmap string (list V)).
Context (quantiles : V → list V → option (V * V)).
Context (model_inputs : list string).
Context (backend : string → gmap string (V * V) → res unit).

(** The same through the quantizer: a [partial_fit] after [compute_ranges]
    raises [StateError], and [compute_ranges] returns the same ranges
    again. *)
Lemma partial_fit_after_compute_ranges q q' ranges
    (shard : Dataset (gmap string (Cell Image Tensor)) Feature)
    cfg batch_size :
  let quantizer :=
    estimator_quantizer (Feature := Feature) leb forward quantiles
      model_inputs backend in
  compute_ranges (Quantizer := quantizer) q = Ok (q', ranges) →
  partial_fit (Quantizer := quantizer) q' shard cfg batch_size = Raise StateError ∧
  compute_ranges (Quantizer := quantizer) q' = Ok (q', ranges).
Proof.
  destruct q as [e|]; [|done]. simpl. by intros [= <- <-].
Qed.
End quantizer_state_protection.

(** ** What a run has done when lines 155-289 have completed *)

Section prepare_facts.
Import datasets script.
Context {V Image Tensor Feature Q Model : Type}.
Context (w : World V Image Tensor Feature Q Model).
Context `{!Quantizer V Image Tensor Feature Q}.
Implicit Types p : Prepared V Image Tensor Feature Q.
Implicit Types ds : Dataset (gmap string (Cell Image Tensor)) Feature.

Lemma labels_column_in ds column :
  (if bool_decide ("labels" ∈ column_names ds) then Ok "labels"
   else or_raise (column_names ds !! 1%nat) IndexError) = Ok column →
  column ∈ column_names ds.
Proof.
  case_bool_decide as Hin; [by intros [= <-]|].
  destruct (column_names ds !! 1%nat) as [c|] eqn:Hc; [|done].
  intros [= <-]. by eapply list_elem_of_lookup_2.
Qed.

Lemma prepare_inv inv t p :
  prepare w inv = (t, Ok p) →
  ∃ a load validation n,
    inv = FromCommandLine a ∧
    p_args p = a ∧
    (isdir w (output_dir (training_args a))
     && negb (overwrite_output_dir (training_args a))) = false ∧
    p_dataset p !! "validation" = Some validation ∧
    p_labels_column p ∈ column_names validation ∧
    p_calibration_config p
      = calibration_config_for (optim_args a) (p_calibration_dataset p) ∧
    t = [ LogInfo (OptimizationParameters (optim_args a));
          Makedirs (output_dir (training_args a));
          load;
          LoadFeatureExtractor (model_name_or_path (model_args a));
          LoadMetric "accuracy";
          ExportModel (model_name_or_path (model_args a))
                      (output_dir (training_args a))
                      [batch_size (model_args a); 3%Z; p_image_size p; p_image_size p]
                      [batch_size (model_args a); num_labels (model_args a)];
          CreateQuantizer (output_dir (training_args a)) "model.onnx";
          Preprocess n;
          CleanCalibrationDataset ] ∧
    (load = LoadDataset (default EmptyString (dataset_name (data_args a)))
     ∨ ∃ files, load = LoadImageFolder files).
Proof.
  unfold prepare. intros H.
  step H. destruct inv as [a|a]; [done|]. injection Hx as <- <-.
  do 16 step H.
  destruct (dataset_name (data_args a)) as [name|] eqn:Hname;
    destruct (num_calibration_samples (optim_args a)) as [n|] eqn:Hn;
    unravel;
    (match goal with
     | Hv : getitem _ "validation" = Ok ?v |- _ =>
         unfold getitem in Hv;
         destruct (_ !! "validation") eqn:Hval; [|done];
         injection Hv as ->;
         exists a; eexists _, v, _
     end);
    simpl; (split_and!; try done; [by apply labels_column_in|]);
    rewrite ?Hname; simpl; eauto.
Qed.
End prepare_facts.

(** ** The shard-count check *)

Section shard_check.
Import datasets script.
Context {V Image Tensor Feature Q Model : Type}.
Context (w : World V Image Tensor Feature Q Model).
Context `{!Quantizer V Image Tensor Feature Q}.

(** C1, as the script has it. When lines 155-289 have completed and the
    shard count K is below 1 or above the number N of rows of the
    calibration dataset, the run fails with the [ValueError] of line 292;
    no [partial_fit], [compute_ranges] or [quantize] call has been made,
    and nothing is done after the check. The model export and the
    preprocessing of the calibration dataset have run by then: the check
    needs N, the length of the preprocessed dataset. *)
Theorem invalid_shard_count_rejected inv t
    (p : Prepared V Image Tensor Feature Q) :
  prepare w inv = (t, Ok p) →
  (num_calibration_shards (optim_args (p_args p)) < 1
   ∨ Z.of_nat (len (p_calibration_dataset p))
     < num_calibration_shards (optim_args (p_args p)))%Z →
  main w inv
    = (t, Raise (ValueError
                   (InvalidShards (num_calibration_shards (optim_args (p_args p)))
                                  (len (p_calibration_dataset p))))) ∧
  Forall (λ ev, calibration_event ev = false) t ∧
  Exists (λ ev, export_event ev = true) t ∧
  Exists (λ ev, preprocess_event ev = true) t.
Proof.
  intros Hp HK. split.
  - unfold main. rewrite (M_bind_Ok _ _ _ _ Hp).
    assert (calibrate w p
            = ([], Raise (ValueError
                 (InvalidShards (num_calibration_shards (optim_args (p_args p)))
                                (len (p_calibration_dataset p)))))) as ->.
    { unfold calibrate.
      destruct (Z.leb_spec 1 (num_calibration_shards (optim_args (p_args p))));
        [|done].
      destruct (Z.leb_spec (num_calibration_shards (optim_args (p_args p)))
                  (Z.of_nat (len (p_calibration_dataset p)))); [lia|done]. }
    simpl. by rewrite app_nil_r.
  - apply prepare_inv in Hp
      as (a & load & validation & n & _ & _ & _ & _ & _ & _ & -> & Hload).
    split_and!.
    + repeat constructor. by destruct Hload as [->|[files ->]].
    + do 5 apply Exists_cons_tl. by apply Exists_cons_hd.
    + do 7 apply Exists_cons_tl. by apply Exists_cons_hd.
Qed.
End shard_check.

(** ** The calibration method *)

Section method_choice.
Import datasets script.
Context {V Image Tensor Feature Q Model : Type}.
Context (w : World V Image Tensor Feature Q Model).
Context `{!Quantizer V Image Tensor Feature Q}.
Implicit Types ds : Dataset (gmap string (Cell Image Tensor)) Feature.

Local Ltac project :=
  cbn [with_calibration_method model_args data_args training_args optim_args
       quantization_approach calibration_method num_calibration_samples
       num_calibration_shards calibration_batch_size
       calibration_histogram_percentile
       p_args p_dataset p_labels_column p_feature_extractor p_image_size
       p_quantizer p_qconfig p_calibration_dataset p_calibration_config].

(** One step of two runs that make the same call. *)
Local Ltac same_step :=
  project;
  lazymatch goal with
  | |- (_ ≫= _) ≫= _ = (_ ≫= _) ≫= _ => rewrite !M_bind_assoc
  | |- mret _ ≫= _ = mret _ ≫= _ => rewrite !M_bind_mret
  | |- _ ≫= _ = _ ≫= _ => apply M_bind_cong; [reflexivity|intros ?; cbv beta]
  end.

Lemma calibration_config_for_other (o : OptimizationArguments V) ds :
  calibration_method o ≠ "percentile_asym" →
  calibration_config_for o ds = estimator.MinMaxAsymmetric.
Proof. intros H. unfold calibration_config_for. by case_bool_decide. Qed.

(** Two runs whose arguments differ only in a calibration method that is
    not "percentile_asym" differ only in the parameters they log first. *)
Lemma main_method_irrelevant (a : Args V) m1 m2 :
  m1 ≠ "percentile_asym" → m2 ≠ "percentile_asym" →
  ∃ t r,
    main w (FromCommandLine (with_calibration_method m1 a))
    = (LogInfo (OptimizationParameters
                  (optim_args (with_calibration_method m1 a))) :: t, r) ∧
    main w (FromCommandLine (with_calibration_method m2 a))
    = (LogInfo (OptimizationParameters
                  (optim_args (with_calibration_method m2 a))) :: t, r).
Proof.
  intros H1 H2.
  unfold main, prepare, parse_args.
  rewrite !M_bind_assoc, !M_bind_mret. cbv zeta.
  rewrite !M_bind_assoc, !emit_bind.
  match goal with
  | |- ∃ t r, (_ :: (?X).1, _) = _ ∧ (_ :: (?Y).1, _) = _ =>
      assert (X = Y) as ->; [|by eexists _, _]
  end.
  repeat same_step.
  rewrite !calibration_config_for_other by done.
  unfold calibrate, apply_quantization, evaluate. project. reflexivity.
Qed.

(** C9. Whatever the calibration method is, other than the exact string
    "percentile_asym", the configuration built at lines 282-289 is the
    min-max asymmetric one, and the run goes exactly as with
    "minmax_asym": the same calls in the same order and the same result,
    so an unrecognized method raises no error of its own. Only the
    parameters logged at line 179 show the method that was given. *)
Theorem unrecognized_method_is_minmax (a : Args V) (method : string) :
  method ≠ "percentile_asym" →
  (∀ ds, calibration_config_for
           (optim_args (with_calibration_method method a)) ds
         = estimator.MinMaxAsymmetric) ∧
  ∃ t r,
    main w (FromCommandLine (with_calibration_method method a))
    = (LogInfo (OptimizationParameters
                  (optim_args (with_calibration_method method a))) :: t, r) ∧
    main w (FromCommandLine (with_calibration_method "minmax_asym" a))
    = (LogInfo (OptimizationParameters
                  (optim_args (with_calibration_method "minmax_asym" a))) :: t, r).
Proof.
  intros Hm. split.
  - intros ds. by apply calibration_config_for_other.
  - by apply main_method_irrelevant.
Qed.
End method_choice.

(** ** The checks before any computation *)

Section early_checks.
Import datasets script.
Context {V Image Tensor Feature Q Model : Type}.
Context (w : World V Image Tensor Feature Q Model).
Context `{!Quantizer V Image Tensor Feature Q}.
Implicit Types ds : Dataset (gmap string (Cell Image Tensor)) Feature.

Lemma getitem_Some {A} (m : gmap string A) key x :
  m !! key = Some x → getitem m key = Ok x.
Proof. unfold getitem. by intros ->. Qed.

Lemma getitem_None {A} (m : gmap string A) key :
  m !! key = None → getitem m key = Raise (KeyError key).
Proof. unfold getitem. by intros ->. Qed.

(** C5, at an output directory that exists and is empty. Line 181 asks
    whether the directory exists, not whether it holds anything: without
    the overwrite flag the run stops with the [ValueError] whose message
    says the directory "already exists and is not empty", having logged
    its parameters and done nothing else. *)
Theorem empty_output_dir_rejected (a : Args V) :
  isdir w (output_dir (training_args a)) = true →
  listdir w (output_dir (training_args a)) = [] →
  overwrite_output_dir (training_args a) = false →
  main w (FromCommandLine a)
  = ([LogInfo (OptimizationParameters (optim_args a))],
     Raise (ValueError (OutputDirExists (output_dir (training_args a))))).
Proof.
  intros Hdir _ Hover. unfold main, prepare, parse_args.
  rewrite !M_bind_assoc, !M_bind_mret. cbv zeta.
  rewrite !M_bind_assoc, emit_bind, Hdir, Hover. done.
Qed.

Lemma missing_dataset_source_true d :
  missing_dataset_source d = true ↔
  dataset_name d = None ∧ train_dir d = None ∧ validation_dir d = None.
Proof.
  unfold missing_dataset_source.
  rewrite !andb_true_iff, !bool_decide_eq_true. tauto.
Qed.

(** C10. The check of line 188 fails only when the dataset name, the
    training folder and the validation folder are all absent. With a
    validation folder alone it passes; when the collaborators called up to
    line 258 succeed, the model has been exported and the quantizer
    created before line 265 reads the "train" split, which is not there:
    the run ends with [KeyError], not with the [ValueError] of the
    check. *)
Theorem validation_only_fails_at_train_split (a : Args V) (d : string)
    ds fe image_size q :
  dataset_name (data_args a) = None →
  train_dir (data_args a) = None →
  validation_dir (data_args a) = Some d →
  (isdir w (output_dir (training_args a))
   && negb (overwrite_output_dir (training_args a))) = false →
  makedirs w (output_dir (training_args a)) = Ok () →
  load_folder w (path_join d "**") (cache_dir (model_args a)) = Ok ds →
  ("labels" ∈ column_names ds ∨ is_Some (column_names ds !! 1%nat)) →
  feature_extractor_from_pretrained w (model_name_or_path (model_args a)) = Ok fe →
  size fe !! "shortest_edge" = Some image_size →
  load_metric w "accuracy" = Ok () →
  export_model_to_onnx w (model_name_or_path (model_args a))
    (output_dir (training_args a))
    [batch_size (model_args a); 3%Z; image_size; image_size]
    [batch_size (model_args a); num_labels (model_args a)] = Ok () →
  quantizer_from_pretrained w (output_dir (training_args a)) "model.onnx" = Ok q →
  (∀ d', missing_dataset_source d' = true ↔
         dataset_name d' = None ∧ train_dir d' = None ∧ validation_dir d' = None) ∧
  missing_dataset_source (data_args a) = false ∧
  main w (FromCommandLine a)
  = ([ LogInfo (OptimizationParameters (optim_args a));
       Makedirs (output_dir (training_args a));
       LoadImageFolder [("validation", path_join d "**")];
       LoadFeatureExtractor (model_name_or_path (model_args a));
       LoadMetric "accuracy";
       ExportModel (model_name_or_path (model_args a))
                   (output_dir (training_args a))
                   [batch_size (model_args a); 3%Z; image_size; image_size]
                   [batch_size (model_args a); num_labels (model_args a)];
       CreateQuantizer (output_dir (training_args a)) "model.onnx" ],
     Raise (KeyError "train")).
Proof.
  intros Hname Htrain Hval Hdir Hmk Hload Hcol Hfe Hsize Hmetric Hexport Hq.
  assert (missing_dataset_source (data_args a) = false) as Hsrc.
  { unfold missing_dataset_source. rewrite Hval.
    by rewrite (bool_decide_eq_false_2 (Some d = None)), andb_false_r. }
  split_and!; [apply missing_dataset_source_true|done|].
  assert (∃ column,
            (if bool_decide ("labels" ∈ column_names ds) then Ok "labels"
             else or_raise (column_names ds !! 1%nat) IndexError) = Ok column)
    as [column Hcolumn].
  { case_bool_decide; [by eauto|]. destruct Hcol as [?|[c ->]]; [done|by eauto]. }
  unfold main, prepare, parse_args.
  rewrite !M_bind_assoc, !M_bind_mret. cbv zeta.
  rewrite Hdir, Hsrc, Hname, Htrain, Hval, Hmk. cbn [app].
  unfold load_imagefolder. cbn [mapM snd fst]. rewrite Hload.
  cbn [mbind res_bind mret res_ret list_to_map foldr uncurry fst snd].
  do 5 forward. rewrite (getitem_Some _ "validation" ds) by apply lookup_insert_eq.
  forward. rewrite Hcolumn. forward. rewrite Hfe. forward.
  rewrite (getitem_Some _ "shortest_edge" image_size) by done. forward.
  rewrite Hmetric. forward. rewrite Hexport. forward. rewrite Hq. forward.
  rewrite (getitem_None _ "train")
    by (rewrite lookup_insert_ne by done; apply lookup_empty).
  by rewrite !M_bind_assoc.
Qed.
End early_checks.

(** ** The JSON report *)

Section json_facts.
Import json.
Context {V : Type} (render : V → string).
Implicit Types d : list (string * V).

Global Instance item_le_trans : Transitive (item_le (V:=V)).
Proof. intros a b c. unfold item_le. apply transitivity. Qed.

Global Instance item_le_total : Total (item_le (V:=V)).
Proof. intros a b. unfold item_le. apply (total String.le). Qed.






End json_facts.

(** ** Evaluation *)

Section evaluation.
Import datasets script.
Context {V Image Tensor Feature Q Model : Type}.
Context (w : World V Image Tensor Feature Q Model).
Context `{!Quantizer V Image Tensor Feature Q}.
Implicit Types ds : Dataset (gmap string (Cell Image Tensor)) Feature.
Implicit Types p : Prepared V Image Tensor Feature Q.

Lemma assoc_is_Some {A} key (items : list (string * A)) :
  key ∈ items.*1 → is_Some (assoc key items).
Proof.
  induction items as [|[k v] items IH]; csimpl.
  - by intros ?%elem_of_nil.
  - intros [->|Hin]%elem_of_cons.
    + rewrite bool_decide_eq_true_2 by done. eauto.
    + case_bool_decide; eauto.
Qed.

Lemma shuffle_select_features seed n ds ds' :
  shuffle_select w seed n ds = Ok ds' → features ds' = features ds.
Proof.
  unfold shuffle_select, shuffle.
  intros (shuffled & [Hf _]%select_Ok & [Hf' _]%select_Ok)%bind_Ok. congruence.
Qed.

(** C6. A label mapping that cannot be aligned with the labels of the
    dataset ([align_labels_with_mapping] raises) is logged as a warning
    that names the mapping of the model and the label feature of the
    dataset. The run goes on with the labels as they are: when the
    collaborators of the evaluation succeed, the evaluation loop runs
    over the unaligned dataset and its metrics are written to
    [eval_results.json]. *)
Theorem label_mismatch_is_a_warning inv t p validation eval_dataset
    model_config e furiosa_model metrics :
  prepare w inv = (t, Ok p) →
  do_eval (training_args (p_args p)) = true →
  config_from_pretrained w (model_name_or_path (model_args (p_args p)))
    = Ok model_config →
  p_dataset p !! "validation" = Some validation →
  match max_eval_samples (data_args (p_args p)) with
  | Some n => shuffle_select w (seed (training_args (p_args p))) n validation
  | None => Ok validation
  end = Ok eval_dataset →
  align_labels_with_mapping w eval_dataset (label2id model_config)
    (p_labels_column p) = Raise e →
  load_quantized_model w
    (path_join (output_dir (training_args (p_args p))) "model_quantized.dfg")
    [p_labels_column p] = Ok furiosa_model →
  (batch ← preprocess_function w (p_feature_extractor p) (p_image_size p)
             (rows eval_dataset);
   evaluation_loop w furiosa_model batch) = Ok metrics →
  open_for_writing w
    (path_join (output_dir (training_args (p_args p))) "eval_results.json")
    = Ok () →
  ∃ feature,
    assoc (p_labels_column p) (features eval_dataset) = Some feature ∧
    evaluate w p
    = ([ LogInfo EvaluateBanner;
         LoadModelConfig (model_name_or_path (model_args (p_args p)));
         AlignLabels;
         LogWarning (label2id model_config) feature;
         LoadQuantizedModel
           (path_join (output_dir (training_args (p_args p)))
                      "model_quantized.dfg");
         EvaluationLoop (len eval_dataset);
         WriteFile
           (path_join (output_dir (training_args (p_args p)))
                      "eval_results.json")
           (json.dumps (float_repr w) 4 true metrics) ],
       Ok ()).
Proof.
  intros Hp Heval Hcfg Hval Hsel Halign Hmodel Hloop Hopen.
  apply prepare_inv in Hp
    as (a & load & validation' & n & _ & _ & _ & Hval' & Hcol & _).
  assert (validation' = validation) as -> by congruence.
  assert (features eval_dataset = features validation) as Hfeat.
  { destruct (max_eval_samples _).
    - by eapply shuffle_select_features.
    - by injection Hsel as <-. }
  destruct (assoc_is_Some (p_labels_column p) (features eval_dataset))
    as [feature Hfeature].
  { by rewrite Hfeat. }
  exists feature. split; [done|].
  unfold evaluate. rewrite Heval, Hcfg.
  rewrite (getitem_Some _ "validation" validation) by done.
  do 3 forward.
  assert (match max_eval_samples (data_args (p_args p)) with
          | Some n =>
              lift (shuffle_select w (seed (training_args (p_args p))) n validation)
          | None => mret validation
          end = (lift (Ok eval_dataset) : M _)) as ->.
  { destruct (max_eval_samples _); [by rewrite Hsel|by injection Hsel as <-]. }
  forward. rewrite Halign. cbv iota. forward.
  unfold feature_of. rewrite Hfeature. cbn [or_raise]. do 3 forward.
  rewrite Hmodel. forward. rewrite Hloop. forward. rewrite Hopen. by forward.
Qed.
End evaluation.

(** ** The calibration sampler *)

Section sampler.
Import datasets script.
Context {V Image Tensor Feature Q Model : Type}.
Implicit Types w : World V Image Tensor Feature Q Model.
Implicit Types ds selected : Dataset (gmap string (Cell Image Tensor)) Feature.

(** [select(range(n))] takes the first [n] rows. *)
Lemma select_range ds (n : Z) ds' :
  select ds (range n) = Ok ds' → rows ds' = take (Z.to_nat n) (rows ds).
Proof.
  intros Hs. pose proof (select_len _ _ _ Hs) as Hlen.
  apply select_Ok in Hs as [_ Hall]. unfold range, len in *.
  rewrite length_seq in Hlen. apply list_eq. intros j.
  destruct (decide (j < Z.to_nat n)) as [Hj|Hj].
  - rewrite lookup_take_lt by done.
    destruct (Forall2_lookup_l _ _ _ j j Hall) as (r & -> & Hr).
    { by apply lookup_seq_lt. }
    done.
  - rewrite lookup_take_ge by lia. apply lookup_ge_None. lia.
Qed.

(** C3. The samples that [shuffle(seed=seed).select(range(N))] selects,
    and the shards of the selection, are functions of the seed, the
    dataset, N and the shard count alone: two runs that agree on these
    (with the same generator and shard layout of the libraries) select the
    same samples and the same shards, whatever else differs between them,
    the entropy of the system included. The selection is the first N rows
    of the seeded shuffle. *)
Theorem sampler_is_deterministic w1 w2 (seed n : Z) ds (num_shards : nat) :
  permutation w1 = permutation w2 →
  shard_contiguous w1 = shard_contiguous w2 →
  shuffle_select w1 seed n ds = shuffle_select w2 seed n ds ∧
  (∀ selected index,
     shard (shard_contiguous w1) selected num_shards index
     = shard (shard_contiguous w2) selected num_shards index) ∧
  (∀ selected,
     shuffle_select w1 seed n ds = Ok selected →
     ∃ shuffled,
       select ds (permutation w1 seed (len ds)) = Ok shuffled ∧
       rows selected = take (Z.to_nat n) (rows shuffled)).
Proof.
  intros Hperm Hlayout. split_and!.
  - unfold shuffle_select, shuffle. simpl. by rewrite Hperm.
  - intros selected index. by rewrite Hlayout.
  - intros selected (shuffled & Hsh & Hsel)%bind_Ok.
    exists shuffled. split; [done|]. by apply select_range.
Qed.
End sampler.

(** ** The small run *)

Section small_run.
Import datasets script demo.

Example prepare_beans :
  prepare (world 0 false) (H := quantizer) (FromCommandLine (beans 2))
  = (prepare_trace 2, Ok (prepared 2)).
Proof. vm_compute. reflexivity. Qed.

Example main_beans :
  main (world 0 false) (H := quantizer) (FromCommandLine (beans 2))
  = (prepare_trace 2
       ++ [PartialFit 0 2; PartialFit 1 2; ComputeRanges; Quantize "out"]
       ++ evaluate_trace,
     Ok ()).
Proof. vm_compute. reflexivity. Qed.

Example ranges_beans :
  (calibrate (world 0 false) (H := quantizer) (prepared 2)).2
  = Ok (Some (estimator.mkEstimator estimator.Finalized
                (estimator.MinMaxStats {[ "logits" := (1, 10)%Z ]})
                (Some {[ "logits" := (1, 10)%Z ]})),
        {[ "logits" := (1, 10)%Z ]}).
Proof. vm_compute. reflexivity. Qed.

Example report_beans :
  json.dumps (float_repr (world 0 false)) 4 true
    [("eval_loss", 0%Z); ("eval_accuracy", 1%Z)]
  = String.concat json.newline
      [ "{";
        "    " +:+ json.dquote +:+ "eval_accuracy" +:+ json.dquote +:+ ": 1.0,";
        "    " +:+ json.dquote +:+ "eval_loss" +:+ json.dquote +:+ ": 0.0";
        "}" ].
Proof. vm_compute. reflexivity. Qed.
End small_run.

(** ** The theorems at the small run *)

Section instances.
Import datasets script demo.

Lemma Z_leb_total (a b : Z) : (a <=? b)%Z = true ∨ (b <=? a)%Z = true.
Proof. destruct (Z.leb_spec a b), (Z.leb_spec b a); auto; lia. Qed.

Lemma Z_leb_trans (a b c : Z) :
  (a <=? b)%Z = true → (b <=? c)%Z = true → (a <=? c)%Z = true.
Proof. rewrite !Z.leb_le. lia. Qed.

Lemma Z_leb_antisym (a b : Z) :
  (a <=? b)%Z = true → (b <=? a)%Z = true → a = b.
Proof. rewrite !Z.leb_le. lia. Qed.

(** With a shard count of 0 the run fails at line 292, after the model has
    been exported and the calibration dataset preprocessed. *)
Lemma invalid_shard_count_after_export :
  num_calibration_shards (optim_args (beans 0)) = 0%Z ∧
  main (world 0 false) (H := quantizer) (FromCommandLine (beans 0))
  = ([ LogInfo (OptimizationParameters (optim_args (beans 0)));
       Makedirs "out"; LoadDataset "beans"; LoadFeatureExtractor "resnet";
       LoadMetric "accuracy";
       ExportModel "resnet" "out" [1%Z; 3%Z; 2%Z; 2%Z] [1%Z; 3%Z];
       CreateQuantizer "out" "model.onnx"; Preprocess 4;
       CleanCalibrationDataset ],
     Raise (ValueError (InvalidShards 0 4))).
Proof. split; vm_compute; reflexivity. Qed.

Lemma invalid_shard_count_rejected_witness :
  prepare (world 0 false) (H := quantizer) (FromCommandLine (beans 7))
    = (prepare_trace 7, Ok (prepared 7)) ∧
  (num_calibration_shards (optim_args (p_args (prepared 7))) < 1
   ∨ Z.of_nat (len (p_calibration_dataset (prepared 7)))
     < num_calibration_shards (optim_args (p_args (prepared 7))))%Z ∧
  main (world 0 false) (H := quantizer) (FromCommandLine (beans 7))
    = (prepare_trace 7, Raise (ValueError (InvalidShards 7 4))) ∧
  Forall (λ ev, calibration_event ev = false) (prepare_trace 7) ∧
  Exists (λ ev, export_event ev = true) (prepare_trace 7) ∧
  Exists (λ ev, preprocess_event ev = true) (prepare_trace 7).
Proof.
  assert (prepare (world 0 false) (H := quantizer) (FromCommandLine (beans 7))
          = (prepare_trace 7, Ok (prepared 7))) as Hp
    by (vm_compute; reflexivity).
  assert ((num_calibration_shards (optim_args (p_args (prepared 7))) < 1
           ∨ Z.of_nat (len (p_calibration_dataset (prepared 7)))
             < num_calibration_shards (optim_args (p_args (prepared 7))))%Z) as HK
    by (right; vm_compute; reflexivity).
  split; [exact Hp|]. split; [exact HK|].
  exact (invalid_shard_count_rejected (world 0 false) _ _ _ Hp HK).
Defined.

Lemma minmax_ranges_independent_of_sharding_witness :
  p_calibration_config (prepared 1) = estimator.MinMaxAsymmetric ∧
  p_calibration_config (prepared 3) = estimator.MinMaxAsymmetric ∧
  p_quantizer (prepared 1) = None ∧
  p_quantizer (prepared 3) = None ∧
  p_calibration_dataset (prepared 3) = p_calibration_dataset (prepared 1) ∧
  (1 ≤ num_calibration_shards (optim_args (p_args (prepared 1)))
     ≤ Z.of_nat (len (p_calibration_dataset (prepared 1))))%Z ∧
  (1 ≤ num_calibration_shards (optim_args (p_args (prepared 3)))
     ≤ Z.of_nat (len (p_calibration_dataset (prepared 1))))%Z ∧
  ∃ q q' ranges,
    (calibrate (world 0 false) (H := quantizer) (prepared 1)).2 = Ok (q, ranges) ∧
    (calibrate (world 0 true) (H := quantizer) (prepared 3)).2 = Ok (q', ranges) ∧
    ranges = estimator.batch_stats Z.leb forward
               (rows (p_calibration_dataset (prepared 1))).
Proof.
  do 5 (split; [reflexivity|]).
  split; [vm_compute; split; discriminate|].
  split; [vm_compute; split; discriminate|].
  apply (minmax_ranges_independent_of_sharding Z.leb forward quantiles
           ["pixel_values"] (λ _ _, Ok ())
           Z_leb_total Z_leb_trans Z_leb_antisym
           (world 0 false) (world 0 true) (prepared 1) (prepared 3));
    try reflexivity; vm_compute; split; discriminate.
Defined.

Lemma sampler_is_deterministic_witness :
  permutation (world 0 false) = permutation (world 7 false) ∧
  shard_contiguous (world 0 false) = shard_contiguous (world 7 false) ∧
  shuffle_select (world 0 false) 42 4 train
    = shuffle_select (world 7 false) 42 4 train ∧
  (∀ (selected : Dataset (gmap string (Cell Z (list Z))) string) index,
     shard (shard_contiguous (world 0 false)) selected 2 index
     = shard (shard_contiguous (world 7 false)) selected 2 index) ∧
  (∀ selected : Dataset (gmap string (Cell Z (list Z))) string,
     shuffle_select (world 0 false) 42 4 train = Ok selected →
     ∃ shuffled,
       select train (permutation (world 0 false) 42 (len train)) = Ok shuffled ∧
       rows selected = take (Z.to_nat 4) (rows shuffled)).
Proof.
  split; [reflexivity|]. split; [reflexivity|].
  apply (sampler_is_deterministic (world 0 false) (world 7 false) 42 4 train 2);
    reflexivity.
Defined.

Lemma shard_sizes_near_equal_witness :
  1 ≤ 2 ≤ len train ∧
  ∃ shards,
    mapM (shard false train 2) (seq 0 2) = Ok shards ∧
    length shards = 2 ∧
    (∀ i s, shards !! i = Some s →
       len s = len train / 2 + (if i <? len train `mod` 2 then 1 else 0)) ∧
    sum_list (len <$> shards) = len train ∧
    (∀ s1 s2, s1 ∈ shards → s2 ∈ shards → len s1 ≤ len s2 + 1).
Proof.
  assert (1 ≤ 2 ≤ len train) as H by (vm_compute; lia).
  split; [exact H|]. exact (shard_sizes_near_equal false train 2 H).
Defined.

Lemma empty_output_dir_rejected_witness :
  isdir world_with_output_dir (output_dir (training_args (beans 1))) = true ∧
  listdir world_with_output_dir (output_dir (training_args (beans 1))) = [] ∧
  overwrite_output_dir (training_args (beans 1)) = false ∧
  main world_with_output_dir (H := quantizer) (FromCommandLine (beans 1))
  = ([LogInfo (OptimizationParameters (optim_args (beans 1)))],
     Raise (ValueError (OutputDirExists (output_dir (training_args (beans 1)))))).
Proof.
  do 3 (split; [reflexivity|]).
  apply (empty_output_dir_rejected world_with_output_dir (beans 1)); reflexivity.
Defined.

Lemma label_mismatch_is_a_warning_witness :
  prepare (world 0 false) (H := quantizer) (FromCommandLine (beans 2))
    = (prepare_trace 2, Ok (prepared 2)) ∧
  align_labels_with_mapping (world 0 false) validation
    [("cat", 0%Z); ("dog", 1%Z)] "label" = Raise (KeyError "tabby") ∧
  ∃ feature,
    assoc (p_labels_column (prepared 2)) (features validation) = Some feature ∧
    evaluate (world 0 false) (prepared 2)
    = ([ LogInfo EvaluateBanner;
         LoadModelConfig (model_name_or_path (model_args (p_args (prepared 2))));
         AlignLabels;
         LogWarning (label2id {| label2id := [("cat", 0%Z); ("dog", 1%Z)] |}) feature;
         LoadQuantizedModel
           (path_join (output_dir (training_args (p_args (prepared 2))))
                      "model_quantized.dfg");
         EvaluationLoop (len validation);
         WriteFile
           (path_join (output_dir (training_args (p_args (prepared 2))))
                      "eval_results.json")
           (json.dumps (float_repr (world 0 false)) 4 true [("eval_accuracy", 1%Z)]) ],
       Ok ()).
Proof.
  split; [vm_compute; reflexivity|]. split; [reflexivity|].
  apply (label_mismatch_is_a_warning (Quantizer0 := quantizer) (world 0 false)
           (FromCommandLine (beans 2)) (prepare_trace 2) (prepared 2)
           validation validation {| label2id := [("cat", 0%Z); ("dog", 1%Z)] |}
           (KeyError "tabby") () [("eval_accuracy", 1%Z)]);
    vm_compute; reflexivity.
Defined.


Lemma unrecognized_method_is_minmax_witness :
  "entropy" ≠ "percentile_asym" ∧
  (∀ ds : Dataset (gmap string (Cell Z (list Z))) string,
     calibration_config_for
       (optim_args (with_calibration_method "entropy" (beans 2))) ds
     = estimator.MinMaxAsymmetric) ∧
  ∃ t r,
    main (world 0 false) (H := quantizer)
      (FromCommandLine (with_calibration_method "entropy" (beans 2)))
    = (LogInfo (OptimizationParameters
                  (optim_args (with_calibration_method "entropy" (beans 2)))) :: t, r) ∧
    main (world 0 false) (H := quantizer)
      (FromCommandLine (with_calibration_method "minmax_asym" (beans 2)))
    = (LogInfo (OptimizationParameters
                  (optim_args (with_calibration_method "minmax_asym" (beans 2)))) :: t, r).
Proof.
  assert ("entropy" ≠ "percentile_asym") as H by discriminate.
  split; [exact H|].
  exact (unrecognized_method_is_minmax (world 0 false) (beans 2) "entropy" H).
Defined.

Lemma validation_only_fails_at_train_split_witness :
  dataset_name (data_args (args None None (Some "val") "minmax_asym" None 1)) = None ∧
  train_dir (data_args (args None None (Some "val") "minmax_asym" None 1)) = None ∧
  validation_dir (data_args (args None None (Some "val") "minmax_asym" None 1))
    = Some "val" ∧
  missing_dataset_source (data_args (args None None (Some "val") "minmax_asym" None 1))
    = false ∧
  main (world 0 false) (H := quantizer)
    (FromCommandLine (args None None (Some "val") "minmax_asym" None 1))
  = ([ LogInfo (OptimizationParameters
                  (optim_args (args None None (Some "val") "minmax_asym" None 1)));
       Makedirs "out";
       LoadImageFolder [("validation", path_join "val" "**")];
       LoadFeatureExtractor "resnet";
       LoadMetric "accuracy";
       ExportModel "resnet" "out" [1%Z; 3%Z; 2%Z; 2%Z] [1%Z; 3%Z];
       CreateQuantizer "out" "model.onnx" ],
     Raise (KeyError "train")).
Proof.
  do 3 (split; [reflexivity|]).
  apply (validation_only_fails_at_train_split (world 0 false)
           (args None None (Some "val") "minmax_asym" None 1) "val"
           validation feature_extractor 2 None);
    try reflexivity.
  right. vm_compute. eauto.
Defined.
End instances.

(** * Further properties of the script *)

(** ** Computations that may have raised *)

Section M_outcomes.
Import script.
Context {V Feature : Type}.
Abbreviation M := (@M V Feature).

(** Whatever a sequence did, either its first part raised, or it returned
    and the rest did what remains. *)
Lemma M_bind_inv {A B} (m : M A) (f : A → M B) t r :
  m ≫= f = (t, r) →
  (∃ e, m = (t, Raise e) ∧ r = Raise e)
  ∨ (∃ t1 a t2, m = (t1, Ok a) ∧ f a = (t2, r) ∧ t = t1 ++ t2).
Proof.
  destruct m as [t1 [a|e]]; unfold mbind, M_bind; simpl.
  - destruct (f a) as [t2 r'] eqn:Hf. simpl. intros [= <- <-]. right. eauto 6.
  - intros [= <- <-]. left. eauto.
Qed.

Lemma call_bind_Raise {A B} ev e (f : A → M B) :
  call ev (Raise e) ≫= f = ([ev], Raise e).
Proof. done. Qed.

Lemma lift_bind_Raise {A B} e (f : A → M B) :
  lift (Raise e) ≫= f = ([], Raise e).
Proof. done. Qed.

Lemma raise_bind {A B} e (f : A → M B) : raise e ≫= f = ([], Raise e).
Proof. done. Qed.

(** The first call of a sequence is its first event. *)
Lemma call_bind_head {A B} ev (r : res A) (f : A → M B) :
  ∃ t r', call ev r ≫= f = (ev :: t, r').
Proof. destruct r as [a|e]; unfold mbind, M_bind; simpl; eauto. Qed.
End M_outcomes.

(** ** The errors of lines 155-189 *)

Section configuration_errors.
Import datasets script.
Context {V Image Tensor Feature Q Model : Type}.
Context (w : World V Image Tensor Feature Q Model).
Context `{!Quantizer V Image Tensor Feature Q}.
Implicit Types a : Args V.

(** X1. Started with the path of a [.json] file as its only argument, the
    script unpacks the four parsed dataclasses into five names (line 159):
    whatever the file holds, the run ends with [ValueError] before it has
    logged, checked or created anything. *)
Theorem json_file_invocation_fails a :
  main w (FromJsonFile a) = ([], Raise (ValueError UnpackMismatch)).
Proof. reflexivity. Qed.

(** A run from the command line that passes both checks creates the output
    directory next. *)
Lemma main_past_checks a :
  (isdir w (output_dir (training_args a))
   && negb (overwrite_output_dir (training_args a))) = false →
  missing_dataset_source (data_args a) = false →
  ∃ t r,
    main w (FromCommandLine a)
    = (LogInfo (OptimizationParameters (optim_args a))
         :: Makedirs (output_dir (training_args a)) :: t, r).
Proof.
  intros Hdir Hsrc. unfold main, prepare, parse_args.
  rewrite !M_bind_assoc, !M_bind_mret. cbv zeta. rewrite Hdir, Hsrc.
  destruct (makedirs w (output_dir (training_args a))) as [[]|e].
  - eexists _, _. do 4 forward. apply surjective_pairing.
  - eexists _, _. do 3 forward. rewrite ?M_bind_assoc. reflexivity.
Qed.

Lemma main_missing_source a :
  (isdir w (output_dir (training_args a))
   && negb (overwrite_output_dir (training_args a))) = false →
  missing_dataset_source (data_args a) = true →
  main w (FromCommandLine a)
  = ([LogInfo (OptimizationParameters (optim_args a))],
     Raise (ValueError NoDatasetSource)).
Proof.
  intros Hdir Hsrc. unfold main, prepare, parse_args.
  rewrite !M_bind_assoc, !M_bind_mret. cbv zeta. rewrite Hdir, Hsrc.
  do 2 forward. rewrite ?M_bind_assoc. done.
Qed.

Lemma main_output_dir_exists a :
  (isdir w (output_dir (training_args a))
   && negb (overwrite_output_dir (training_args a))) = true →
  main w (FromCommandLine a)
  = ([LogInfo (OptimizationParameters (optim_args a))],
     Raise (ValueError (OutputDirExists (output_dir (training_args a))))).
Proof.
  intros Hdir. unfold main, prepare, parse_args.
  rewrite !M_bind_assoc, !M_bind_mret. cbv zeta. rewrite Hdir.
  forward. rewrite ?M_bind_assoc. done.
Qed.

(** X2. The run stops at line 182, having only logged its parameters,
    exactly when the output directory exists and the overwrite flag is not
    set; what the directory holds, and every other argument, plays no
    part. *)
Theorem output_dir_error_iff a :
  main w (FromCommandLine a)
  = ([LogInfo (OptimizationParameters (optim_args a))],
     Raise (ValueError (OutputDirExists (output_dir (training_args a)))))
  ↔ isdir w (output_dir (training_args a)) = true
    ∧ overwrite_output_dir (training_args a) = false.
Proof.
  split.
  - intros Hmain.
    destruct (isdir w (output_dir (training_args a))
              && negb (overwrite_output_dir (training_args a))) eqn:Hdir.
    { apply andb_true_iff in Hdir as [? ?%negb_true_iff]. done. }
    destruct (missing_dataset_source (data_args a)) eqn:Hsrc.
    + rewrite main_missing_source in Hmain by done. done.
    + destruct (main_past_checks a Hdir Hsrc) as (t & r & Ht).
      rewrite Ht in Hmain. done.
  - intros [Hdir Hover]. apply main_output_dir_exists. by rewrite Hdir, Hover.
Qed.

(** X3. The run stops at line 189 with "Need either a dataset name or a
    training/validation folder", having only logged its parameters (the
    output directory is not created), exactly when the check of the output
    directory passes and no dataset name, no training folder and no
    validation folder is given: the output directory is checked first. *)
Theorem missing_source_error_iff a :
  main w (FromCommandLine a)
  = ([LogInfo (OptimizationParameters (optim_args a))],
     Raise (ValueError NoDatasetSource))
  ↔ (isdir w (output_dir (training_args a)) = false
     ∨ overwrite_output_dir (training_args a) = true)
    ∧ dataset_name (data_args a) = None
    ∧ train_dir (data_args a) = None
    ∧ validation_dir (data_args a) = None.
Proof.
  rewrite <-missing_dataset_source_true. split.
  - intros Hmain.
    destruct (isdir w (output_dir (training_args a))
              && negb (overwrite_output_dir (training_args a))) eqn:Hdir.
    { rewrite main_output_dir_exists in Hmain by done. done. }
    destruct (missing_dataset_source (data_args a)) eqn:Hsrc.
    + split; [|done].
      apply andb_false_iff in Hdir as [?|?%negb_false_iff]; auto.
    + destruct (main_past_checks a Hdir Hsrc) as (t & r & Ht).
      rewrite Ht in Hmain. done.
  - intros [Hdir Hsrc]. apply main_missing_source; [|done].
    apply andb_false_iff. destruct Hdir as [->| ->]; auto.
Qed.
End configuration_errors.

(** ** Lines 191-289, step by step *)

Section preparation.
Import datasets script.
Context {V Image Tensor Feature Q Model : Type}.
Context (w : World V Image Tensor Feature Q Model).
Context `{!Quantizer V Image Tensor Feature Q}.
Implicit Types a : Args V.
Implicit Types p : Prepared V Image Tensor Feature Q.
Implicit Types ds : Dataset (gmap string (Cell Image Tensor)) Feature.

(** Everything that has returned when lines 155-289 have completed. *)
Lemma prepare_Ok_inv inv t p :
  prepare w inv = (t, Ok p) →
  ∃ validation train selected preprocessed,
    inv = FromCommandLine (p_args p) ∧
    p_dataset p !! "validation" = Some validation ∧
    p_dataset p !! "train" = Some train ∧
    (if bool_decide ("labels" ∈ column_names validation) then Ok "labels"
     else or_raise (column_names validation !! 1%nat) IndexError)
      = Ok (p_labels_column p) ∧
    feature_extractor_from_pretrained w
      (model_name_or_path (model_args (p_args p))) = Ok (p_feature_extractor p) ∧
    size (p_feature_extractor p) !! "shortest_edge" = Some (p_image_size p) ∧
    match num_calibration_samples (optim_args (p_args p)) with
    | Some n => shuffle_select w (seed (training_args (p_args p))) n train
    | None => Ok train
    end = Ok selected ∧
    map_batched w
      (preprocess_function w (p_feature_extractor p) (p_image_size p)) selected
      = Ok preprocessed ∧
    clean_calibration_dataset (p_quantizer p) preprocessed
      = Ok (p_calibration_dataset p) ∧
    Preprocess (len selected) ∈ t.
Proof.
  unfold prepare. intros H.
  step H. destruct inv as [a|a]; [done|]. injection Hx as <- <-.
  do 16 step H.
  destruct (dataset_name (data_args a)) as [name|] eqn:Hname;
    destruct (num_calibration_samples (optim_args a)) as [n|] eqn:Hn;
    unravel;
    repeat match goal with
      | Hg : getitem ?d ?k = Ok ?v |- _ =>
          unfold getitem in Hg;
          destruct (d !! k) eqn:?; [|done];
          injection Hg as ->
      end;
    simpl; rewrite ?Hn;
    eexists _, _, _, _; (split_and!; try done);
    rewrite !elem_of_cons; auto 20.
Qed.

(** X5. When lines 155-289 have completed, the column that the evaluation
    reads the labels from is a column of the validation split: "labels" when
    the split has a column of that name, whatever its position, and the
    second column otherwise. *)
Theorem labels_column_is_a_column inv t p :
  prepare w inv = (t, Ok p) →
  ∃ validation,
    p_dataset p !! "validation" = Some validation ∧
    p_labels_column p ∈ column_names validation ∧
    ("labels" ∈ column_names validation → p_labels_column p = "labels") ∧
    ("labels" ∉ column_names validation →
     column_names validation !! 1%nat = Some (p_labels_column p)).
Proof.
  intros (validation & _ & _ & _ & _ & Hval & _ & Hcol & _)%prepare_Ok_inv.
  exists validation. split_and!; [done|by apply labels_column_in| |].
  - intros Hin. rewrite bool_decide_eq_true_2 in Hcol by done. congruence.
  - intros Hin. rewrite bool_decide_eq_false_2 in Hcol by done.
    by destruct (column_names validation !! 1%nat); simplify_eq/=.
Qed.

(** X7. The model is exported with a square input: when lines 155-289 have
    completed, the feature extractor of the model has a "shortest_edge"
    size, and the one export that was made gave the input shape
    [batch_size, 3, shortest_edge, shortest_edge] and the output shape
    [batch_size, num_labels]. *)
Theorem export_shape_from_shortest_edge inv t p :
  prepare w inv = (t, Ok p) →
  ∃ fe edge,
    feature_extractor_from_pretrained w
      (model_name_or_path (model_args (p_args p))) = Ok fe ∧
    size fe !! "shortest_edge" = Some edge ∧
    filter (λ ev, export_event ev = true) t
    = [ExportModel (model_name_or_path (model_args (p_args p)))
         (output_dir (training_args (p_args p)))
         [batch_size (model_args (p_args p)); 3%Z; edge; edge]
         [batch_size (model_args (p_args p)); num_labels (model_args (p_args p))]].
Proof.
  intros Hp.
  destruct (prepare_Ok_inv _ _ _ Hp)
    as (_ & _ & _ & _ & _ & _ & _ & _ & Hfe & Hsize & _).
  exists (p_feature_extractor p), (p_image_size p). split_and!; [done..|].
  apply prepare_inv in Hp
    as (a & load & validation & n & _ & <- & _ & _ & _ & _ & -> & Hload).
  by destruct Hload as [->|[files ->]].
Qed.
End preparation.

(** ** Where a run stops between lines 191 and 221 *)

Section early_failures.
Import datasets script.
Context {V Image Tensor Feature Q Model : Type}.
Context (w : World V Image Tensor Feature Q Model).
Context `{!Quantizer V Image Tensor Feature Q}.
Implicit Types a : Args V.
Implicit Types ds : Dataset (gmap string (Cell Image Tensor)) Feature.

(** X4. With a training folder and no validation folder (and no dataset
    name), the dataset has no "validation" split, and line 213 reads it
    whether or not evaluation was asked for: the run ends with [KeyError]
    as soon as the folder is loaded, before any model is fetched. *)
Theorem train_only_fails_at_validation_split a (d : string) ds :
  dataset_name (data_args a) = None →
  train_dir (data_args a) = Some d →
  validation_dir (data_args a) = None →
  (isdir w (output_dir (training_args a))
   && negb (overwrite_output_dir (training_args a))) = false →
  makedirs w (output_dir (training_args a)) = Ok () →
  load_folder w (path_join d "**") (cache_dir (model_args a)) = Ok ds →
  main w (FromCommandLine a)
  = ([ LogInfo (OptimizationParameters (optim_args a));
       Makedirs (output_dir (training_args a));
       LoadImageFolder [("train", path_join d "**")] ],
     Raise (KeyError "validation")).
Proof.
  intros Hname Htrain Hval Hdir Hmk Hload.
  assert (missing_dataset_source (data_args a) = false) as Hsrc.
  { unfold missing_dataset_source. rewrite Htrain.
    by rewrite (bool_decide_eq_false_2 (Some d = None)), andb_false_r. }
  unfold main, prepare, parse_args.
  rewrite !M_bind_assoc, !M_bind_mret. cbv zeta.
  rewrite Hdir, Hsrc, Hname, Htrain, Hval, Hmk. cbn [app].
  unfold load_imagefolder. cbn [mapM snd fst]. rewrite Hload.
  cbn [mbind res_bind mret res_ret list_to_map foldr uncurry fst snd].
  do 5 forward.
  rewrite (getitem_None _ "validation")
    by (rewrite lookup_insert_ne by done; apply lookup_empty).
  rewrite ?M_bind_assoc. done.
Qed.

(** X6. A validation split without a "labels" column and with fewer than
    two columns has no second column to fall back on: line 214 raises
    [IndexError] right after the dataset is loaded. *)
Theorem no_labels_column_fails a (name : string) dataset validation :
  dataset_name (data_args a) = Some name →
  (isdir w (output_dir (training_args a))
   && negb (overwrite_output_dir (training_args a))) = false →
  makedirs w (output_dir (training_args a)) = Ok () →
  load_hub w name = Ok dataset →
  dataset !! "validation" = Some validation →
  "labels" ∉ column_names validation →
  length (column_names validation) ≤ 1 →
  main w (FromCommandLine a)
  = ([ LogInfo (OptimizationParameters (optim_args a));
       Makedirs (output_dir (training_args a));
       LoadDataset name ],
     Raise IndexError).
Proof.
  intros Hname Hdir Hmk Hload Hval Hlabels Hlen.
  assert (missing_dataset_source (data_args a) = false) as Hsrc.
  { unfold missing_dataset_source. rewrite Hname.
    by rewrite (bool_decide_eq_false_2 (Some name = None)). }
  unfold main, prepare, parse_args.
  rewrite !M_bind_assoc, !M_bind_mret. cbv zeta.
  rewrite Hdir, Hsrc, Hname, Hmk, Hload.
  do 5 forward. rewrite (getitem_Some _ "validation" validation) by done.
  forward. rewrite bool_decide_eq_false_2 by done.
  rewrite (lookup_ge_None_2 (column_names validation) 1) by lia.
  rewrite ?M_bind_assoc. done.
Qed.

(** X8. A feature extractor whose [size] has no "shortest_edge" entry stops
    the run at line 221 with [KeyError], after the dataset and the feature
    extractor have been loaded and before the metric is loaded or the model
    exported. *)
Theorem no_shortest_edge_fails a (name : string) dataset validation fe :
  dataset_name (data_args a) = Some name →
  (isdir w (output_dir (training_args a))
   && negb (overwrite_output_dir (training_args a))) = false →
  makedirs w (output_dir (training_args a)) = Ok () →
  load_hub w name = Ok dataset →
  dataset !! "validation" = Some validation →
  ("labels" ∈ column_names validation
   ∨ is_Some (column_names validation !! 1%nat)) →
  feature_extractor_from_pretrained w (model_name_or_path (model_args a)) = Ok fe →
  size fe !! "shortest_edge" = None →
  main w (FromCommandLine a)
  = ([ LogInfo (OptimizationParameters (optim_args a));
       Makedirs (output_dir (training_args a));
       LoadDataset name;
       LoadFeatureExtractor (model_name_or_path (model_args a)) ],
     Raise (KeyError "shortest_edge")).
Proof.
  intros Hname Hdir Hmk Hload Hval Hcol Hfe Hsize.
  assert (missing_dataset_source (data_args a) = false) as Hsrc.
  { unfold missing_dataset_source. rewrite Hname.
    by rewrite (bool_decide_eq_false_2 (Some name = None)). }
  assert (∃ column,
            (if bool_decide ("labels" ∈ column_names validation) then Ok "labels"
             else or_raise (column_names validation !! 1%nat) IndexError)
            = Ok column) as [column Hcolumn].
  { case_bool_decide; [by eauto|]. destruct Hcol as [?|[c ->]]; [done|by eauto]. }
  unfold main, prepare, parse_args.
  rewrite !M_bind_assoc, !M_bind_mret. cbv zeta.
  rewrite Hdir, Hsrc, Hname, Hmk, Hload.
  do 5 forward. rewrite (getitem_Some _ "validation" validation) by done.
  forward. rewrite Hcolumn. forward. rewrite Hfe. forward.
  rewrite (getitem_None _ "shortest_edge") by done.
  rewrite ?M_bind_assoc. done.
Qed.
End early_failures.

(** ** [preprocess_function] and the batched map *)

Lemma mapM_res_Ok {A B} (f : A → res B) (l : list A) (k : list B) :
  mapM f l = Ok k ↔ Forall2 (λ x y, f x = Ok y) l k.
Proof.
  revert k. induction l as [|x l IH]; intros k; simpl.
  - split; [by intros [= <-]; constructor|]. by inversion 1.
  - split.
    + intros (y & Hy & (k' & Hk' & [= <-])%bind_Ok)%bind_Ok.
      constructor; [done|]. by apply IH.
    + inversion 1 as [|? y ? k' Hy Hk']; subst. rewrite Hy. simpl.
      apply IH in Hk'. by rewrite Hk'.
Qed.

(** The first element on which [f] raises decides what [mapM] raises. *)
Lemma mapM_res_Raise {A B} (f : A → res B) (l : list A) e :
  mapM f l = Raise e →
  ∃ l1 x l2, l = l1 ++ x :: l2 ∧ f x = Raise e
             ∧ Forall (λ y, ∃ z, f y = Ok z) l1.
Proof.
  induction l as [|x l IH]; simpl; [done|].
  destruct (f x) as [y|e'] eqn:Hx; simpl.
  - destruct (mapM f l) as [k|e'] eqn:Hl; simpl; [done|].
    intros [= ->]. destruct IH as (l1 & x' & l2 & -> & Hx' & Hl1); [done|].
    exists (x :: l1), x', l2. split_and!; [done..|]. constructor; eauto.
  - intros [= ->]. exists [], x, l. split_and!; [done..|constructor].
Qed.

Section preprocessing.
Import datasets script outcome.
Context {V Image Tensor Feature Q Model : Type}.
Context (w : World V Image Tensor Feature Q Model).
Implicit Types row : gmap string (Cell Image Tensor).
Implicit Types batch : list (gmap string (Cell Image Tensor)).
Implicit Types ds : Dataset (gmap string (Cell Image Tensor)) Feature.
Implicit Types fe : FeatureExtractor (V := V).

Lemma preprocess_row_Ok fe image_size row row' :
  (cell ← getitem row "image";
   match cell with
   | CellImage image =>
       Ok (<["pixel_values" :=
               CellTensor (transforms w (image_mean fe) (image_std fe)
                             image_size image)]> row)
   | _ => Raise (AttributeError "convert")
   end) = Ok row'
  ↔ preprocessed_row w fe image_size row row'.
Proof.
  unfold preprocessed_row, getitem.
  destruct (row !! "image") as [[image|z|t]|]; simpl; split;
    try done; try (by intros (? & [= ] & _)).
  - intros [= <-]. eauto.
  - by intros (image' & [= <-] & ->).
Qed.

Lemma preprocess_function_Ok fe image_size batch batch' :
  preprocess_function w fe image_size batch = Ok batch'
  ↔ Forall2 (preprocessed_row w fe image_size) batch batch'.
Proof.
  unfold preprocess_function. rewrite mapM_res_Ok. split;
    intros H; (eapply Forall2_impl; [exact H|]); intros row row';
    apply preprocess_row_Ok.
Qed.

(** X9. [preprocess_function] returns exactly when every row of the batch
    holds an image under "image"; it then returns one row per row of the
    batch, in the same order. A row without an "image" column makes it
    raise [KeyError]; a row whose "image" is no image makes it raise
    [AttributeError] (the [convert] of line 234). *)
Theorem preprocess_function_returns_iff fe image_size batch :
  (∃ batch', preprocess_function w fe image_size batch = Ok batch'
             ∧ length batch' = length batch)
  ↔ Forall (λ row, ∃ image, row !! "image" = Some (CellImage image)) batch.
Proof.
  split.
  - intros (batch' & H%preprocess_function_Ok & _).
    induction H as [|row row' ?? (image & Himage & _) _ IH]; constructor; eauto.
  - intros Hall.
    destruct (mapM_res_Forall2
                (λ row,
                   cell ← getitem row "image";
                   match cell with
                   | CellImage image =>
                       Ok (<["pixel_values" :=
                               CellTensor (transforms w (image_mean fe)
                                             (image_std fe) image_size image)]> row)
                   | _ => Raise (AttributeError "convert")
                   end)
                (preprocessed_row w fe image_size) batch) as (batch' & Hm & Hall').
    { eapply Forall_impl; [exact Hall|]. intros row (image & Himage).
      eexists. split; [|by exists image].
      unfold getitem. by rewrite Himage. }
    exists batch'. split; [exact Hm|]. symmetry. by eapply Forall2_length.
Qed.

(** X10. On the rows it returns, [preprocess_function] has changed nothing
    but "pixel_values": every other column of every row, the image
    included, is as it was, and "pixel_values" holds the transformed
    image. *)
Theorem preprocess_function_keeps_columns fe image_size batch batch' i row' :
  preprocess_function w fe image_size batch = Ok batch' →
  batch' !! i = Some row' →
  ∃ row image,
    batch !! i = Some row ∧
    row !! "image" = Some (CellImage image) ∧
    row' !! "image" = Some (CellImage image) ∧
    row' !! "pixel_values"
    = Some (CellTensor (transforms w (image_mean fe) (image_std fe)
                          image_size image)) ∧
    ∀ column, column ≠ "pixel_values" → row' !! column = row !! column.
Proof.
  intros H%preprocess_function_Ok Hi.
  destruct (Forall2_lookup_r _ _ _ _ _ H Hi)
    as (row & Hrow & image & Himage & ->).
  exists row, image. split_and!; [done..| | |].
  - by rewrite lookup_insert_ne.
  - by rewrite lookup_insert_eq.
  - intros column Hc. by rewrite lookup_insert_ne.
Qed.

(** X11. The first row, in the order of the batch, that holds no image
    decides how [preprocess_function] fails: with [KeyError] when the row
    has no "image" column, with [AttributeError] when the cell is not an
    image. *)
Theorem preprocess_function_raises fe image_size batch e :
  preprocess_function w fe image_size batch = Raise e →
  ∃ before row after,
    batch = before ++ row :: after ∧
    Forall (λ r, ∃ image, r !! "image" = Some (CellImage image)) before ∧
    ((row !! "image" = None ∧ e = KeyError "image")
     ∨ ((∃ cell, row !! "image" = Some cell
                 ∧ ∀ image, cell ≠ CellImage image)
        ∧ e = AttributeError "convert")).
Proof.
  intros (l1 & row & l2 & -> & Hrow & Hl1)%mapM_res_Raise.
  exists l1, row, l2. split_and!; [done| |].
  - eapply Forall_impl; [exact Hl1|]. intros r [r' Hr].
    apply preprocess_row_Ok in Hr as (image & ? & _). eauto.
  - unfold getitem in Hrow.
    destruct (row !! "image") as [[image|z|t]|]; simpl in Hrow;
      try done; injection Hrow as <-; [right..|left]; (split; [|done]);
      try (eexists; split; [done|]; by intros ?); done.
Qed.
End preprocessing.

Section batched_map.
Import datasets script outcome.
Context {V Image Tensor Feature Q Model : Type}.
Context (w : World V Image Tensor Feature Q Model).
Implicit Types ds : Dataset (gmap string (Cell Image Tensor)) Feature.
Implicit Types fe : FeatureExtractor (V := V).

(** X12. The preprocessing of a dataset (lines 272-277) keeps the number
    and the order of its rows and its columns, and adds the column
    "pixel_values" once, after the others, when there are rows and it is
    not there yet. A dataset without rows comes back as it is, without
    [preprocess_function] being called: no "image" column is needed
    then. *)
Theorem map_batched_preprocess fe image_size ds ds' :
  map_batched w (preprocess_function w fe image_size) ds = Ok ds' →
  Forall2 (preprocessed_row w fe image_size) (rows ds) (rows ds') ∧
  len ds' = len ds ∧
  (rows ds = [] → ds' = ds) ∧
  (rows ds ≠ [] →
   column_names ds'
   = if bool_decide ("pixel_values" ∈ column_names ds) then column_names ds
     else column_names ds ++ ["pixel_values"]).
Proof.
  unfold map_batched, len. destruct (rows ds) as [|row rs] eqn:Hrows.
  - intros [= <-]. rewrite Hrows. split_and!; [constructor|done..].
  - intros (batch' & H%preprocess_function_Ok & [= <-])%bind_Ok.
    pose proof (Forall2_length _ _ _ H) as Hlen. simpl in *.
    split_and!; [done|done|done|].
    intros _. unfold column_names. simpl. case_bool_decide; [done|].
    by rewrite fmap_app.
Qed.
End batched_map.

(** ** The seeded selection of lines 267-269 and 321 *)

Section selection.
Import datasets script.
Context {V Image Tensor Feature Q Model : Type}.
Context (w : World V Image Tensor Feature Q Model).
Implicit Types ds : Dataset (gmap string (Cell Image Tensor)) Feature.

Lemma shuffle_Ok (seed : Z) ds :
  permutation w seed (len ds) ≡ₚ seq 0 (len ds) →
  ∃ shuffled,
    shuffle (permutation w) (entropy w) (Some seed) ds = Ok shuffled ∧
    features shuffled = features ds ∧
    rows shuffled ≡ₚ rows ds.
Proof.
  intros Hperm. unfold shuffle. simpl.
  destruct (select_in_range ds (permutation w seed (len ds))) as [shuffled Hs].
  { rewrite Hperm. apply Forall_seq. lia. }
  exists shuffled. split; [done|].
  pose proof (select_rows _ _ _ Hs) as Hrows.
  apply select_Ok in Hs as [Hf _]. split; [done|].
  assert (∀ l : list (gmap string (Cell Image Tensor)),
            omap id (Some <$> l) = l) as Hid.
  { induction l as [|r l IH]; [done|]. csimpl. by rewrite IH. }
  rewrite <-(Hid (rows shuffled)), Hrows, Hperm, lookup_all. by rewrite Hid.
Qed.

(** X13. When the generator yields a permutation of the indices and at
    most as many samples are asked for as the dataset has, the seeded
    selection returns exactly that many rows (none for a count of zero or
    below), each of them a row of the dataset and none taken twice, and
    keeps the features. *)
Theorem shuffle_select_takes_n (seed n : Z) ds :
  permutation w seed (len ds) ≡ₚ seq 0 (len ds) →
  (n ≤ Z.of_nat (len ds))%Z →
  ∃ selected,
    shuffle_select w seed n ds = Ok selected ∧
    len selected = Z.to_nat n ∧
    rows selected ⊆+ rows ds ∧
    features selected = features ds.
Proof.
  intros Hperm Hn. unfold shuffle_select.
  destruct (shuffle_Ok seed ds Hperm) as (shuffled & -> & Hf & Hrows). simpl.
  destruct (select_in_range shuffled (range n)) as [selected Hs].
  { apply Forall_seq. intros j Hj. unfold len in *.
    rewrite Hrows. lia. }
  exists selected. split; [done|].
  pose proof (select_range _ _ _ Hs) as Htake.
  pose proof (select_len _ _ _ Hs) as Hlen.
  apply select_Ok in Hs as [Hf' _]. split_and!.
  - rewrite Hlen. unfold range. by rewrite length_seq.
  - rewrite Htake, <-Hrows. apply sublist_submseteq, sublist_take.
  - congruence.
Qed.

(** X14. Asking for more samples than the dataset has rows makes
    [select(range(n))] raise [IndexError]: the selection is never padded
    or cut short. *)
Theorem shuffle_select_too_many (seed n : Z) ds :
  permutation w seed (len ds) ≡ₚ seq 0 (len ds) →
  (Z.of_nat (len ds) < n)%Z →
  shuffle_select w seed n ds = Raise IndexError.
Proof.
  intros Hperm Hn. unfold shuffle_select.
  destruct (shuffle_Ok seed ds Hperm) as (shuffled & -> & Hf & Hrows). simpl.
  unfold select.
  destruct (mapM (λ i, rows shuffled !! i) (range n)) as [rs|] eqn:Hm; [|done].
  apply mapM_Some in Hm.
  destruct (Forall2_lookup_l _ _ _ (len ds) (len ds) Hm) as (r & _ & Hr).
  { unfold range. apply lookup_seq_lt. lia. }
  apply lookup_lt_Some in Hr. unfold len in *. rewrite Hrows in Hr. lia.
Qed.
End selection.

(** ** The calls of the calibration, lines 291-305 *)

Section calibration_calls.
Import datasets script outcome.
Context {V Image Tensor Feature Q Model : Type}.
Context (w : World V Image Tensor Feature Q Model).
Context `{!Quantizer V Image Tensor Feature Q}.
Implicit Types ds : Dataset (gmap string (Cell Image Tensor)) Feature.
Implicit Types p : Prepared V Image Tensor Feature Q.

(** The loop calls [partial_fit] on the shards in the order of their
    indices, and stops at the first call that raises. *)
Lemma calibration_loop_calls num_shards batch_size ds cfg indices q t r :
  Forall (λ i, i < Z.to_nat num_shards) indices →
  calibration_loop w num_shards batch_size ds cfg q indices = (t, r) →
  ∃ j, j ≤ length indices ∧
       t = (λ i, PartialFit i (shard_size (len ds) (Z.to_nat num_shards) i))
             <$> take j indices ∧
       (∀ q', r = Ok q' → j = length indices).
Proof.
  intros Hall. revert q t r.
  induction Hall as [|i indices Hi _ IH]; intros q t r H.
  - injection H as <- <-. exists 0. by split_and!.
  - cbn [calibration_loop] in H.
    destruct (shard_Ok (shard_contiguous w) ds _ i Hi) as (s & Hs & Hlen).
    rewrite Hs in H.
    apply M_bind_inv in H as [(e & Hbad & _)|(t1 & s' & t2 & Hok & H & ->)];
      [done|].
    unfold lift in Hok. injection Hok as <- <-.
    cbv beta in H. rewrite Hlen in H.
    apply M_bind_inv in H as [(e & Hfit & ->)|(t1 & q1 & t3 & Hfit & H & ->)];
      unfold call in Hfit; injection Hfit as <- Hfit.
    + exists 1. split_and!; [simpl; lia|done|done].
    + destruct (IH _ _ _ H) as (j & Hj & -> & Hr).
      exists (S j). split_and!; [simpl; lia|done|].
      intros q' ->. simpl. f_equal. eauto.
Qed.

Lemma calibrate_calls p t r :
  calibrate w p = (t, r) →
  let K := num_calibration_shards (optim_args (p_args p)) in
  let N := len (p_calibration_dataset p) in
  ∃ j, j ≤ Z.to_nat K ∧
       ((t = partial_fits N K j ∧ ∃ e, r = Raise e)
        ∨ ((1 ≤ K ≤ Z.of_nat N)%Z ∧ j = Z.to_nat K
           ∧ t = partial_fits N K j ++ [ComputeRanges])).
Proof.
  intros H K N. unfold calibrate in H. fold K N in H.
  apply M_bind_inv in H as [(e & H & ->)|(t1 & [] & t2 & Hcheck & H & ->)].
  { exists 0. split; [lia|]. left.
    destruct (negb _); [|done]. injection H as <-. eauto. }
  apply guard_inv in Hcheck as [Hcheck ->].
  apply negb_false_iff, andb_true_iff in Hcheck as [H1%Z.leb_le HN%Z.leb_le].
  apply M_bind_inv in H as [(e & H & ->)|(t3 & q & t4 & Hloop & H & ->)].
  - apply calibration_loop_calls in H as (j & Hj & -> & _).
    2:{ apply Forall_seq. lia. }
    unfold range in *. rewrite length_seq in Hj. exists j. split; [done|].
    left. split; [|by eauto]. unfold partial_fits.
    by rewrite take_seq, Nat.min_l by lia.
  - apply calibration_loop_calls in Hloop as (j & Hj & -> & Hlen).
    2:{ apply Forall_seq. lia. }
    specialize (Hlen _ eq_refl). subst j. unfold range in *.
    rewrite length_seq, firstn_all2 by (by rewrite length_seq).
    exists (Z.to_nat K). split; [done|]. right. split_and!; [done..|].
    unfold call in H. by injection H as <- _.
Qed.

(** X15. A calibration that returns has been given a shard count K between
    1 and the number N of rows, and has called [partial_fit] exactly once
    per shard, in the order 0, ..., K-1, on a shard of N / K rows (one more
    for the first N mod K shards), and then [compute_ranges] once. *)
Theorem calibrate_returns_after_all_shards p t quantizer ranges :
  calibrate w p = (t, Ok (quantizer, ranges)) →
  (1 ≤ num_calibration_shards (optim_args (p_args p))
     ≤ Z.of_nat (len (p_calibration_dataset p)))%Z ∧
  t = partial_fits (len (p_calibration_dataset p))
        (num_calibration_shards (optim_args (p_args p)))
        (Z.to_nat (num_calibration_shards (optim_args (p_args p))))
      ++ [ComputeRanges].
Proof.
  intros (j & _ & [[_ [e [= ]]]|(HK & -> & ->)])%calibrate_calls. done.
Qed.

(** X16. However the calibration ends, [compute_ranges] is called at most
    once, after [partial_fit] has returned for every shard, and never
    before a [partial_fit]: the calls are [partial_fit] on shards 0, ...,
    j-1 for some j <= K, followed by [compute_ranges] only when j = K. A
    [partial_fit] that raises ends the calibration. *)
Theorem calibrate_never_fits_after_ranges p t r :
  calibrate w p = (t, r) →
  ∃ j,
    j ≤ Z.to_nat (num_calibration_shards (optim_args (p_args p))) ∧
    (t = partial_fits (len (p_calibration_dataset p))
           (num_calibration_shards (optim_args (p_args p))) j
     ∨ (j = Z.to_nat (num_calibration_shards (optim_args (p_args p)))
        ∧ t = partial_fits (len (p_calibration_dataset p))
                (num_calibration_shards (optim_args (p_args p))) j
              ++ [ComputeRanges])).
Proof.
  intros (j & Hj & [[-> _]|(_ & -> & ->)])%calibrate_calls; eauto 6.
Qed.
End calibration_calls.

(** ** The order of the calls *)

Section call_order.
Import datasets script outcome.
Context {V Image Tensor Feature Q Model : Type}.
Context (w : World V Image Tensor Feature Q Model).
Context `{!Quantizer V Image Tensor Feature Q}.
Implicit Types t : list (event V Feature).
Implicit Types p : Prepared V Image Tensor Feature Q.

Lemma staged_nil lo hi : lo ≤ hi → staged lo hi ([] : list (event V Feature)).
Proof. intros. split; [done|]. split; constructor. Qed.

Lemma staged_single lo hi (ev : event V Feature) :
  lo ≤ stage ev < hi → staged lo hi [ev].
Proof.
  intros. split; [lia|]. split; [repeat constructor|].
  constructor; [done|constructor].
Qed.

Lemma staged_app lo mid hi t1 t2 :
  staged lo mid t1 → staged mid hi t2 → staged lo hi (t1 ++ t2).
Proof.
  intros (? & Hs1 & Hb1) (? & Hs2 & Hb2). split; [lia|]. split.
  - apply StronglySorted_app. split; [|done].
    intros e1 e2 H1 H2. left.
    rewrite Forall_forall in Hb1, Hb2.
    specialize (Hb1 _ H1). specialize (Hb2 _ H2). lia.
  - apply Forall_app. split; (eapply Forall_impl; [done|]); simpl; lia.
Qed.

Lemma staged_weaken lo hi lo' hi' t :
  lo' ≤ lo → hi ≤ hi' → staged lo hi t → staged lo' hi' t.
Proof.
  intros ?? (? & ? & Hb). split; [lia|]. split; [done|].
  eapply Forall_impl; [done|]. simpl. lia.
Qed.

Lemma staged_bind {A B} lo mid hi (m : @M V Feature A) (f : A → @M V Feature B) :
  mid ≤ hi →
  staged lo mid m.1 → (∀ a, staged mid hi (f a).1) → staged lo hi (m ≫= f).1.
Proof.
  intros ? Hm Hf. rewrite M_bind_trace. apply (staged_app lo mid hi); [done|].
  destruct m.2; [done|]. by apply staged_nil.
Qed.

(** A step of the script that calls nothing. *)
Lemma staged_silent {A} lo (m : @M V Feature A) : m.1 = [] → staged lo lo m.1.
Proof. intros ->. by apply staged_nil. Qed.

Lemma staged_partial_fits n num_shards j :
  staged 9 10 (partial_fits (V := V) (Feature := Feature) n num_shards j).
Proof.
  unfold partial_fits. split; [lia|]. split.
  - induction j as [|j IH]; [constructor|].
    rewrite seq_S, fmap_app. apply StronglySorted_app. split; [|split; [done|]].
    + intros e1 e2 (i1 & -> & [_ ?]%elem_of_seq)%list_elem_of_fmap
        (i2 & -> & ->%list_elem_of_singleton)%list_elem_of_fmap.
      right. simpl. lia.
    + repeat constructor.
  - apply Forall_fmap, Forall_forall. intros i _. simpl. lia.
Qed.

Lemma staged_calibrate p : staged 9 11 (calibrate w p).1.
Proof.
  destruct (calibrate w p) as [t r] eqn:H.
  apply calibrate_calls in H as (j & _ & [[-> _]|(_ & _ & ->)]); simpl.
  - eapply staged_weaken; [| |apply staged_partial_fits]; lia.
  - apply (staged_app 9 10 11); [apply staged_partial_fits|].
    apply staged_single. simpl. lia.
Qed.
Local Ltac head_ok :=
  unfold parse_args;
  repeat case_match;
  first [ apply staged_silent; reflexivity
        | apply staged_single; simpl; lia ].

(** [via k]: past the next step of the script, which ends before place [k]. *)
Local Ltac via k :=
  rewrite ?M_bind_assoc;
  apply (staged_bind _ k); [lia|head_ok|intros ?; cbv beta].

Lemma staged_evaluate p : staged 12 19 (evaluate w p).1.
Proof.
  unfold evaluate. destruct (do_eval _); [|apply staged_nil; lia].
  via 13. via 14. via 14. via 14.
  destruct (align_labels_with_mapping w _ _ _).
  - via 16. via 17. via 18. via 18. head_ok.
  - via 15. via 15. via 16. via 16. via 17. via 18. via 18. head_ok.
Qed.

Lemma staged_main inv : staged 0 19 (main w inv).1.
Proof.
  unfold main, prepare.
  via 0. cbv zeta. via 1. via 1. via 1. via 2. via 3. via 3. via 3. via 4.
  via 4. via 5. via 6. via 7. via 7. via 7. via 8. via 9. via 9.
  apply (staged_bind _ 11); [lia|apply staged_calibrate|intros qr; cbv beta].
  unfold apply_quantization. via 12. apply staged_evaluate.
Qed.

(** X17. In every run, however it ends, the calls are made in the order of
    the script and each at most once: parameters logged, output directory
    created, dataset, feature extractor and metric loaded, model exported,
    quantizer created, calibration dataset preprocessed and cleaned,
    [partial_fit] on shards of increasing index, [compute_ranges],
    [quantize], and then the steps of the evaluation up to the write of the
    report. Nothing is ever redone or done out of order; in particular no
    [partial_fit] follows [compute_ranges]. *)
Theorem calls_in_script_order inv :
  StronglySorted before (main w inv).1.
Proof. by destruct (staged_main inv) as (_ & ? & _). Qed.
End call_order.

(** ** The labels that the evaluation runs on *)

Section evaluation_labels.
Import datasets script.
Context {V Image Tensor Feature Q Model : Type}.
Context (w : World V Image Tensor Feature Q Model).
Implicit Types p : Prepared V Image Tensor Feature Q.
Implicit Types ds : Dataset (gmap string (Cell Image Tensor)) Feature.

(** X18. An evaluation that completes has run the evaluation loop on the
    preprocessed rows of the validation split (or of its seeded selection)
    with the labels aligned to the mapping of the model when the alignment
    succeeded, and with the labels as they were when it raised; the warning
    of line 328 is in the log exactly in the second case. *)
Theorem evaluation_runs_on_aligned_labels p t :
  do_eval (training_args (p_args p)) = true →
  evaluate w p = (t, Ok ()) →
  ∃ validation eval_dataset model_config furiosa_model batch metrics,
    p_dataset p !! "validation" = Some validation ∧
    match max_eval_samples (data_args (p_args p)) with
    | Some n => shuffle_select w (seed (training_args (p_args p))) n validation
    | None => Ok validation
    end = Ok eval_dataset ∧
    config_from_pretrained w (model_name_or_path (model_args (p_args p)))
      = Ok model_config ∧
    preprocess_function w (p_feature_extractor p) (p_image_size p)
      (rows match align_labels_with_mapping w eval_dataset
                    (label2id model_config) (p_labels_column p) with
            | Ok aligned => aligned
            | Raise _ => eval_dataset
            end) = Ok batch ∧
    evaluation_loop w furiosa_model batch = Ok metrics ∧
    ((∃ feature, LogWarning (label2id model_config) feature ∈ t)
     ↔ ∃ e, align_labels_with_mapping w eval_dataset
              (label2id model_config) (p_labels_column p) = Raise e).
Proof.
  intros Heval H. unfold evaluate in H. rewrite Heval in H.
  do 8 step H.
  destruct (max_eval_samples (data_args (p_args p))) as [n|] eqn:Hn;
    (match goal with
     | Hm : match align_labels_with_mapping w ?d ?l ?c with _ => _ end = _ |- _ =>
         destruct (align_labels_with_mapping w d l c) as [aligned|e] eqn:Halign;
         [|do 3 step Hm]
     end);
    unravel;
    repeat match goal with
      | Hg : getitem ?d ?k = Ok ?v |- _ =>
          unfold getitem in Hg;
          destruct (d !! k) eqn:?; [|done];
          injection Hg as ->
      | Hb : _ ≫= _ = Ok _ |- _ => apply bind_Ok in Hb as (? & ? & ?)
      end;
    simplify_eq/=;
    eexists _, _, _, _, _, _;
    (split; [done|]); (split; [done|]); (split; [done|]);
    rewrite Halign; (split; [done|]); (split; [done|]);
    (split; [|intros [? ?]; simplify_eq; eexists; rewrite !elem_of_cons; eauto 10]);
    intros [feature Hin]; rewrite !elem_of_cons, elem_of_nil in Hin;
    first [by eauto|intuition discriminate].
Qed.
End evaluation_labels.

(** ** What the shards of lines 298-299 hold *)

Section shard_contents.
Import datasets.
Context {Row Feature : Type}.
Implicit Types ds : Dataset Row Feature.

(** X19. For every shard count of at least 1, in the striped and in the
    contiguous layout, the shards [shard(K, 0)], ..., [shard(K, K-1)] that
    the loop passes to [partial_fit] hold every row of the dataset exactly
    once between them, and each has the features of the dataset. *)
Theorem shards_hold_every_row_once contiguous ds (num_shards : nat) :
  0 < num_shards →
  ∃ shards,
    mapM (shard contiguous ds num_shards) (seq 0 num_shards) = Ok shards ∧
    mjoin (rows <$> shards) ≡ₚ rows ds ∧
    Forall (λ s, features s = features ds) shards.
Proof.
  intros HK. destruct (shards_Ok contiguous ds num_shards) as (shards & Hm & Hall).
  exists shards. split_and!; [done|by eapply shards_partition|].
  apply Forall_forall. intros s [i Hi]%list_elem_of_lookup.
  destruct (Forall2_lookup_r _ _ _ _ _ Hall Hi) as (j & _ & Hs & _).
  unfold shard in Hs. destruct (negb _); [done|].
  by apply select_Ok in Hs as [? _].
Qed.

Lemma arange_from_step_1 count start : arange_from count start 1 = seq start count.
Proof.
  revert start. induction count as [|c IH]; intros start; simpl; [done|].
  by rewrite IH, Nat.add_1_r.
Qed.

Lemma select_all ds : select ds (seq 0 (len ds)) = Ok ds.
Proof.
  apply select_Ok. split; [done|].
  apply Forall2_same_length_lookup_2.
  - unfold len. by rewrite length_seq.
  - intros i j r [-> _]%lookup_seq Hr. done.
Qed.

(** X20. With a single shard, in either layout, the one shard is the
    dataset itself, its rows in their order: the one [partial_fit] of a run
    with the default [num_calibration_shards] sees the whole calibration
    dataset. *)
Theorem single_shard_is_the_dataset contiguous ds :
  shard contiguous ds 1 0 = Ok ds.
Proof.
  unfold shard, shard_indices. simpl negb. cbv iota.
  rewrite Nat.div_1_r, Nat.mod_1_r. destruct contiguous.
  - cbn [Nat.ltb Nat.leb Nat.min].
    match goal with
    | |- select ds (seq ?start ?count) = _ =>
        replace count with (len ds) by lia; replace start with 0 by lia
    end.
    apply select_all.
  - unfold arange. rewrite Nat.div_1_r, arange_from_step_1.
    replace (len ds - 0 + 1 - 1) with (len ds) by lia. apply select_all.
Qed.
End shard_contents.
